(** * Tool marketplace engine: a shallow embedding and its properties

    The development follows the TypeScript sources of the backend:
    - [utils/ethUtils.ts]          (module [EthUtils])
    - [utils/vectorUtils.ts]       (module [VectorUtils])
    - [models/apiTool.ts], [models/toolUsage.ts]  (one module per interface)
    - [services/toolExecution.ts]  (module [ToolExecutor])
    - [services/toolDiscovery.ts]  (module [ToolDiscovery])

    JavaScript numbers are IEEE binary64 values and are embedded as the
    primitive [float] type; objects used as dictionaries are [gmap]s;
    promises that reject and statements that throw are embedded as explicit
    outcomes. *)

From Stdlib Require Import ZArith Floats Ascii String List Bool Lia.
From stdpp Require Import base option list sorting gmap strings pretty.

Set Warnings "-inexact-float,-register-all".
Local Open Scope Z_scope.

(** ** Exceptions

    A thrown value is an [Error] instance with its message, or the value
    [undefined] (which [executeWithRetries] throws when its loop body never
    ran).  A computation that may throw returns [Exc]. *)

Inductive Thrown : Type :=
| ErrorObject (message : string)
| ThrownUndefined.

Inductive Exc (A : Type) : Type :=
| Ret (a : A)
| Throw (e : Thrown).
Arguments Ret {A} a.
Arguments Throw {A} e.

#[global] Instance Exc_ret : MRet Exc := fun A a => Ret a.
#[global] Instance Exc_bind : MBind Exc := fun A B f m =>
  match m with
  | Ret a => f a
  | Throw e => Throw e
  end.

Definition returns {A} (m : Exc A) : bool :=
  match m with Ret _ => true | Throw _ => false end.

(** ** JavaScript numbers and number formatting *)

Module Js.

(** [Number(b)] for a BigInt [b]: the nearest binary64 value, ties to even. *)
Definition NumberOfBigInt (b : Z) : float :=
  SF2Prim (binary_normalize prec emax b 0 false).

(** Decimal digits of a non-negative integer, as [Number.prototype.toString]
    and template literals print integers below 10^21. *)
Definition decimal (n : Z) : string :=
  if n <? 0 then "-" +:+ pretty (Z.to_N (- n)) else pretty (Z.to_N n).

Fixpoint zeros (n : nat) : string :=
  match n with O => "" | S k => String "0" (zeros k) end.

(** Steps 11.b-11.c of [Number.prototype.toFixed]: the digits of [n], padded
    on the left to [f + 1] characters, with a point before the last [f]. *)
Definition fixedDigits (n : Z) (f : nat) : string :=
  let m := pretty (Z.to_N n) in
  match f with
  | O => m
  | _ =>
    let k := String.length m in
    let m' := if (k <=? f)%nat then zeros (f + 1 - k) +:+ m else m in
    let k' := String.length m' in
    substring 0 (k' - f) m' +:+ "." +:+ substring (k' - f) f m'
  end.

(** The integer [n] for which [n / 10^f - x] is closest to zero, the larger
    one on a tie, for the exact value [x = m * 2^e] of a positive float. *)
Definition nearestScaled (m : positive) (e : Z) (f : nat) : Z :=
  let num := Z.pos m * 10 ^ Z.of_nat f in
  if 0 <=? e then num * 2 ^ e
  else (2 * num + 2 ^ (- e)) / (2 * 2 ^ (- e)).

(** [x.toFixed(f)].  [None] stands for the cases in which no fixed-point
    string is produced: [f > 100] (a RangeError) and [|x| >= 1e21] (the
    exponent form of [Number.prototype.toString], which is not modelled). *)
Definition toFixed (x : float) (f : nat) : option string :=
  if (100 <? f)%nat then None
  else
    match Prim2SF x with
    | S754_nan => Some "NaN"
    | S754_infinity s => Some (if s then "-Infinity" else "Infinity")
    | S754_zero _ => Some (fixedDigits 0 f)
    | S754_finite s m e =>
      if (1e21 <=? abs x)%float then None
      else Some ((if s then "-" else "") +:+ fixedDigits (nearestScaled m e f) f)
    end.

Fixpoint allZeros (s : string) : bool :=
  match s with
  | "" => true
  | String c s' => Ascii.eqb c "0" && allZeros s'
  end.

(** [0+$] at the start of [s]. *)
Definition zerosToEnd (s : string) : bool :=
  match s with "" => false | _ => allZeros s end.

(** The regular expression [/\.?0+$/] tried at the start of [s]. *)
Definition trailingZerosAt (s : string) : bool :=
  match s with
  | String c s' => (Ascii.eqb c "." && zerosToEnd s') || zerosToEnd s
  | "" => false
  end.

(** [s.replace(/\.?0+$/, "")]: the leftmost match, which runs to the end
    of the string, is removed. *)
Fixpoint stripTrailingZeros (s : string) : string :=
  if trailingZerosAt s then ""
  else match s with
       | "" => ""
       | String c s' => String c (stripTrailingZeros s')
       end.

End Js.

(** ** utils/ethUtils.ts *)

Module EthUtils.

Fixpoint digitsValue (acc : Z) (s : string) : option Z :=
  match s with
  | "" => Some acc
  | String c s' =>
    let d := Z.of_nat (nat_of_ascii c) - 48 in
    if (0 <=? d) && (d <=? 9) then digitsValue (10 * acc + d) s' else None
  end.

(** [BigInt(weiAmount)] on strings of decimal digits with an optional sign,
    and on the empty string (which reads as [0n]).  Any other string gives
    [None]: [BigInt] throws a SyntaxError there, except for blanks around the
    number and radix prefixes, which no stored [costInWei] has (the schema
    admits [/^\d+$/] only). *)
Definition BigInt (s : string) : option Z :=
  match s with
  | "" => Some 0
  | String "-" (String _ _ as ds) => Z.opp <$> digitsValue 0 ds
  | String "+" (String _ _ as ds) => digitsValue 0 ds
  | String "-" "" | String "+" "" => None
  | _ => digitsValue 0 s
  end.

Definition weiToEth (weiAmount : string) : option float :=
  b ← BigInt weiAmount; Some (Js.NumberOfBigInt b / 1e18)%float.

Definition weiToEthString (weiAmount : string) (decimals : option nat)
  : option string :=
  eth ← weiToEth weiAmount;
  Js.stripTrailingZeros <$> Js.toFixed eth (default 6%nat decimals).

Definition formatWei (weiAmount : string) : option string :=
  eth ← weiToEth weiAmount;
  if (1 <=? eth)%float then
    s ← weiToEthString weiAmount None; Some (s +:+ " ETH")
  else if (0.001 <=? eth)%float then
    s ← Js.toFixed (eth * 1000)%float 3; Some (s +:+ " mETH")
  else Some (weiAmount +:+ " wei").

End EthUtils.

(** ** utils/vectorUtils.ts *)

Module VectorUtils.

(** The loop of [cosineSimilarity]: [dotProduct], [normA] and [normB] are
    accumulated from index 0 upwards. *)
Fixpoint accumulate (vecA vecB : list float) (acc : float * float * float)
  : float * float * float :=
  match vecA, vecB with
  | a :: va, b :: vb =>
    let '(dotProduct, normA, normB) := acc in
    accumulate va vb
      (dotProduct + a * b, normA + a * a, normB + b * b)%float
  | _, _ => acc
  end.

Definition cosineSimilarity (vecA vecB : list float) : Exc float :=
  if negb (length vecA =? length vecB)%nat then
    Throw (ErrorObject "Vectors must have the same length")
  else if (length vecA =? 0)%nat then Ret 0%float
  else
    let '(dotProduct, normA, normB) := accumulate vecA vecB (0, 0, 0)%float in
    let normA := sqrt normA in
    let normB := sqrt normB in
    if (normA =? 0)%float || (normB =? 0)%float then Ret 0%float
    else Ret (dotProduct / (normA * normB))%float.

(** [Array.prototype.sort(compareFn)].  The sort is stable, and for a
    comparator that is consistent on the elements every stable sort gives the
    same array, so the algorithm is immaterial; the embedding inserts from
    the right.  An element [x] that stood before [y] moves behind it exactly
    when [compareFn(x, y) > 0]; a comparator result of [NaN] counts as 0. *)
Section Sort.
Context {A : Type} (compareFn : A -> A -> float).

Fixpoint insert (x : A) (l : list A) : list A :=
  match l with
  | [] => [x]
  | y :: l' => if (0 <? compareFn x y)%float then y :: insert x l' else x :: l
  end.

Definition sort (l : list A) : list A := foldr insert [] l.

End Sort.

(** [l.slice(0, end)] for an integral [end]: a negative [end] counts from
    the end of the array. *)
Definition slice0 {A} (l : list A) (end_ : Z) : list A :=
  let len := Z.of_nat (length l) in
  let final := if end_ <? 0 then Z.max (len + end_) 0 else Z.min end_ len in
  take (Z.to_nat final) l.

Record Scored : Type := {
  index : nat;
  similarity : float;
  vector : list float;
}.

(** [vectors.map((vector, index) => ({ index, similarity, vector }))],
    starting at index [i]; the first [cosineSimilarity] that throws ends
    the call. *)
Fixpoint similaritiesFrom (i : nat) (queryVector : list float)
  (vectors : list (list float)) : Exc (list Scored) :=
  match vectors with
  | [] => Ret []
  | v :: vs =>
    s ← cosineSimilarity queryVector v;
    rest ← similaritiesFrom (S i) queryVector vs;
    Ret ({| index := i; similarity := s; vector := v |} :: rest)
  end.

(** The comparator [(a, b) => b.similarity - a.similarity]. *)
Definition bySimilarityDesc (a b : Scored) : float :=
  (similarity b - similarity a)%float.

(** [topK] is the optional third argument (default 5), taken integral. *)
Definition findMostSimilar (queryVector : list float)
  (vectors : list (list float)) (topK : option Z) : Exc (list Scored) :=
  similarities ← similaritiesFrom 0 queryVector vectors;
  Ret (slice0 (sort bySimilarityDesc similarities) (default 5 topK)).

(** The remaining functions of the file. *)

Definition lengthMismatch : Thrown :=
  ErrorObject "Vectors must have the same length".

Definition dotProduct (vecA vecB : list float) : Exc float :=
  if negb (length vecA =? length vecB)%nat then Throw lengthMismatch
  else Ret (foldl (fun product ab => (product + ab.1 * ab.2)%float)
              0%float (zip vecA vecB)).

Definition magnitude (vector : list float) : float :=
  sqrt (foldl (fun sum value => (sum + value * value)%float) 0%float vector).

(** [vector.slice()] is a copy, which a list is by itself. *)
Definition normalizeVector (vector : list float) : list float :=
  let norm := magnitude vector in
  if (norm =? 0)%float then vector
  else map (fun val => (val / norm)%float) vector.

Definition euclideanDistance (vecA vecB : list float) : Exc float :=
  if negb (length vecA =? length vecB)%nat then Throw lengthMismatch
  else Ret (sqrt (foldl (fun sum ab =>
                           let diff := (ab.1 - ab.2)%float in
                           (sum + diff * diff)%float)
                    0%float (zip vecA vecB))).

Definition manhattanDistance (vecA vecB : list float) : Exc float :=
  if negb (length vecA =? length vecB)%nat then Throw lengthMismatch
  else Ret (foldl (fun sum ab => (sum + abs (ab.1 - ab.2))%float)
              0%float (zip vecA vecB)).

(** The loop returns [false] at the first pair further apart than the
    tolerance (default [1e-10]). *)
Definition vectorsEqual (vecA vecB : list float) (tolerance : option float)
  : bool :=
  let tolerance := default 1e-10%float tolerance in
  if negb (length vecA =? length vecB)%nat then false
  else forallb (fun ab => negb (tolerance <? abs (ab.1 - ab.2))%float)
         (zip vecA vecB).

Definition addVectors (vecA vecB : list float) : Exc (list float) :=
  if negb (length vecA =? length vecB)%nat then Throw lengthMismatch
  else Ret (zip_with (fun val other => (val + other)%float) vecA vecB).

Definition subtractVectors (vecA vecB : list float) : Exc (list float) :=
  if negb (length vecA =? length vecB)%nat then Throw lengthMismatch
  else Ret (zip_with (fun val other => (val - other)%float) vecA vecB).

Definition scaleVector (vector : list float) (scalar : float) : list float :=
  map (fun val => (val * scalar)%float) vector.

(** The loop of [meanVector] over the vectors, adding each one into
    [mean]; a vector of another dimension ends it. *)
Fixpoint addAll (dimensions : nat) (vectors : list (list float))
  (mean : list float) : Exc (list float) :=
  match vectors with
  | [] => Ret mean
  | vector :: rest =>
    if negb (length vector =? dimensions)%nat then
      Throw (ErrorObject "All vectors must have the same dimensions")
    else addAll dimensions rest
           (zip_with (fun m v => (m + v)%float) mean vector)
  end.

Definition meanVector (vectors : list (list float)) : Exc (list float) :=
  match vectors with
  | [] => Throw (ErrorObject "Cannot calculate mean of empty vector array")
  | first :: _ =>
    let dimensions := length first in
    mean ← addAll dimensions vectors (replicate dimensions 0%float);
    let count := Js.NumberOfBigInt (Z.of_nat (length vectors)) in
    Ret (map (fun val => (val / count)%float) mean)
  end.

End VectorUtils.

(** Ranking vocabulary for [findMostSimilar]. *)

Module Ranking.
Import VectorUtils.

(** [u] ranks before [v]: the similarity does not increase from [u] to [v],
    and among equal similarities the original index decides. *)
Definition ranksBefore (u v : Scored) : Prop :=
  (similarity v <=? similarity u)%float = true /\
  ((similarity u <=? similarity v)%float = true -> (index u < index v)%nat).

(** The sign of [y - x], which is all the comparator looks at, tells the
    order of [x] and [y].  IEEE subtraction has this property on every pair
    of values that are not NaN; on NaN it fails. *)
Definition verdictAgrees (x y : float) : bool :=
  if (0 <? y - x)%float then (x <? y)%float else (y <=? x)%float.

Definition verdictsAgree (scores : list float) : bool :=
  forallb (fun x => forallb (verdictAgrees x) scores) scores.

(** The similarities of the candidates that have one. *)
Definition scores (queryVector : list float) (vectors : list (list float))
  : list float :=
  omap (fun v => match cosineSimilarity queryVector v with
                 | Ret s => Some s
                 | Throw _ => None
                 end) vectors.

End Ranking.

(** ** Data model: models/apiTool.ts and models/toolUsage.ts

    One module per interface, so that the fields keep their names.  Fields
    that none of the embedded functions reads ([responseSchema],
    [metadata.lastTested], [metadata.rateLimits]) are left out. *)

(** Values as they arrive in a JSON request body or sit in a document. *)
Inductive JsVal : Type :=
| JUndefined
| JNull
| JBool (b : bool)
| JNum (x : float)
| JStr (s : string)
| JArr (items : list JsVal)
| JObj (fields : list (string * JsVal)).

Module Validation.
Record t : Type := {
  min : option float;
  max : option float;
  pattern : option string;
  enum : option (list JsVal);
}.
End Validation.

Module Param.
Record t : Type := {
  name : string;
  type : string;
  required : bool;
  description : string;
  defaultValue : option JsVal;
  validation : option Validation.t;
}.
End Param.

Module ApiConfig.
Record t : Type := {
  endpoint : string;
  method : string;
  headers : option (gmap string string);
  timeout : option Z;
  retries : option Z;
}.
End ApiConfig.

Module Pricing.
Record t : Type := {
  costInWei : string;
  ethCost : option string;
}.
End Pricing.

Module Metadata.
Record t : Type := {
  tags : list string;
  version : string;
  isActive : bool;
  isPublic : bool;
}.
End Metadata.

Module ApiTool.
Record t : Type := {
  toolId : string;
  userId : string;
  name : string;
  description : string;
  category : string;
  apiConfig : ApiConfig.t;
  parameters : list Param.t;
  pricing : Pricing.t;
  metadata : Metadata.t;
  embedding : option (list float);
  createdAt : Z;
  updatedAt : Z;
}.
End ApiTool.

Module ToolUsage.
Record Response : Type := {
  success : bool;
  data : option JsVal;
  error : option string;
  statusCode : option Z;
  executionTime : Z;
}.
Record Billing : Type := {
  costInWei : string;
  paid : bool;
  transactionHash : option string;
  paymentTimestamp : option Z;
}.
Record t : Type := {
  toolId : string;
  userId : string;
  sessionId : string;
  parameters : gmap string JsVal;
  response : Response;
  billing : Billing;
  timestamp : Z;
}.
End ToolUsage.

(** ** services/toolExecution.ts *)

Module ToolExecutor.

Module Result.
Record t : Type := {
  success : bool;
  data : option JsVal;
  error : option string;
  statusCode : option Z;
  executionTime : Z;
  toolId : string;
  billing : Pricing.t;
}.
End Result.

Module RequestConfig.
Record t : Type := {
  url : string;
  method : string;
  headers : gmap string string;
  body : option string;
  timeout : Z;
}.
End RequestConfig.

(** What the language runtime contributes and the embedding does not spell
    out. *)
Record Runtime : Type := {
  (** [new RegExp(pattern).test(s)]; the constructor throws a SyntaxError on
      a string that is no regular expression. *)
  regExpTest : string -> string -> Exc bool;
  (** [ToNumber] on strings, arrays and objects. *)
  coerceNumber : JsVal -> float;
  (** [String(x)] on numbers and on arbitrary values, for messages. *)
  numberToString : float -> string;
  valueToString : JsVal -> string;
  (** [URLSearchParams] built from the entries of an object, and
      [JSON.stringify]. *)
  queryString : gmap string JsVal -> string;
  jsonStringify : gmap string JsVal -> string;
}.

(** An attempt's [fetch] either rejects (network failure) or resolves to a
    response, whose [json()] may throw in turn. *)
Inductive FetchOutcome : Type :=
| FetchRejected (message : string)
| FetchResponded (status : Z) (statusText : string) (json : Exc JsVal).

(** The world outside the engine: what attempt number [n] of a request
    meets and how many milliseconds it takes to settle, and whether the
    store takes a usage record. *)
Record Env : Type := {
  fetch : RequestConfig.t -> Z -> FetchOutcome * Z;
  saveUsage : ToolUsage.t -> bool;
}.

Inductive Event : Type :=
| Fetched (attempt : Z) (request : RequestConfig.t)
| Slept (ms : Z).

(** The state the engine acts on: the clock read by [Date.now()], the
    usage collection, and the calls made to [fetch] and [setTimeout]. *)
Record World : Type := {
  clock : Z;
  ledger : list ToolUsage.t;
  events : list Event;
}.

Definition orDefault (x : option Z) (d : Z) : Z :=
  match x with
  | Some n => if n =? 0 then d else n
  | None => d
  end.

Definition isNullish (v : JsVal) : bool :=
  match v with JUndefined | JNull => true | _ => false end.

Definition typeof (v : JsVal) : string :=
  match v with
  | JUndefined => "undefined"
  | JBool _ => "boolean"
  | JNum _ => "number"
  | JStr _ => "string"
  | JNull | JArr _ | JObj _ => "object"
  end.

Definition isArray (v : JsVal) : bool :=
  match v with JArr _ => true | _ => false end.

Definition isNaN (v : JsVal) : bool :=
  match v with JNum x => is_nan x | _ => false end.

Definition validateType (value : JsVal) (expectedType : string) : bool :=
  if String.eqb expectedType "string" then String.eqb (typeof value) "string"
  else if String.eqb expectedType "number" then
    String.eqb (typeof value) "number" && negb (isNaN value)
  else if String.eqb expectedType "boolean" then
    String.eqb (typeof value) "boolean"
  else if String.eqb expectedType "object" then
    String.eqb (typeof value) "object" && negb (isNullish value)
    && negb (isArray value)
  else if String.eqb expectedType "array" then isArray value
  else true.

(** [Array.prototype.includes] compares with SameValueZero.  Arrays and
    objects are equal to themselves only; a value from the request never is
    the object stored in a tool definition. *)
Definition sameValueZero (a b : JsVal) : bool :=
  match a, b with
  | JUndefined, JUndefined | JNull, JNull => true
  | JBool x, JBool y => Bool.eqb x y
  | JNum x, JNum y => (x =? y)%float || (is_nan x && is_nan y)
  | JStr x, JStr y => String.eqb x y
  | _, _ => false
  end.

Definition includes (l : list JsVal) (v : JsVal) : bool :=
  existsb (fun x => sameValueZero x v) l.

Definition enumTypeError : Thrown :=
  ErrorObject "Cannot read properties of undefined (reading 'length')".

Section Engine.
Context (rt : Runtime) (env : Env).

(** The numeric operand of [value < validation.min]. *)
Definition ToNumber (v : JsVal) : float :=
  match v with
  | JNum x => x
  | JBool b => if b then 1%float else 0%float
  | JNull => 0%float
  | JUndefined => nan
  | _ => coerceNumber rt v
  end.

(** [Array.prototype.join]: null and undefined print as the empty string. *)
Definition join (l : list JsVal) (sep : string) : string :=
  String.concat sep
    (map (fun v => if isNullish v then "" else valueToString rt v) l).

Definition validateConstraints (paramName : string) (value : JsVal)
  (validation : Validation.t) : Exc (list string) :=
  let errors := [] in
  let errors :=
    match Validation.min validation with
    | Some m =>
      if (ToNumber value <? m)%float then
        errors ++ ["Parameter '" +:+ paramName +:+ "' must be at least "
                   +:+ numberToString rt m]
      else errors
    | None => errors
    end in
  let errors :=
    match Validation.max validation with
    | Some m =>
      if (m <? ToNumber value)%float then
        errors ++ ["Parameter '" +:+ paramName +:+ "' must be at most "
                   +:+ numberToString rt m]
      else errors
    | None => errors
    end in
  errors ←
    match Validation.pattern validation, value with
    | Some (String _ _ as p), JStr s =>
      ok ← regExpTest rt p s;
      Ret (if ok : bool then errors
           else errors ++ ["Parameter '" +:+ paramName
                           +:+ "' must match pattern " +:+ p])
    | _, _ => Ret errors
    end;
  match Validation.enum validation with
  | None => Throw enumTypeError
  | Some allowed =>
    if (0 <? length allowed)%nat && negb (includes allowed value) then
      Ret (errors ++ ["Parameter '" +:+ paramName +:+ "' must be one of: "
                      +:+ join allowed ", "])
    else Ret errors
  end.

(** The loop of [validateParameters] over [tool.parameters]; an absent
    property reads as [undefined]. *)
Fixpoint validateEach (params : list Param.t)
  (parameters : gmap string JsVal) (errors : list string)
  : Exc (list string) :=
  match params with
  | [] => Ret errors
  | param :: rest =>
    let value := default JUndefined (parameters !! Param.name param) in
    if Param.required param && isNullish value then
      validateEach rest parameters
        (errors ++ ["Required parameter '" +:+ Param.name param
                    +:+ "' is missing"])
    else if negb (isNullish value) then
      let errors :=
        if validateType value (Param.type param) then errors
        else errors ++ ["Parameter '" +:+ Param.name param
                        +:+ "' must be of type '" +:+ Param.type param
                        +:+ "'"] in
      match Param.validation param with
      | Some validation =>
        validationErrors ←
          validateConstraints (Param.name param) value validation;
        validateEach rest parameters (errors ++ validationErrors)
      | None => validateEach rest parameters errors
      end
    else validateEach rest parameters errors
  end.

(** Returns [{ valid, errors }]. *)
Definition validateParameters (tool : ApiTool.t)
  (parameters : gmap string JsVal) : Exc (bool * list string) :=
  errors ← validateEach (ApiTool.parameters tool) parameters [];
  Ret ((length errors =? 0)%nat, errors).

Definition contentTypeJson : gmap string string :=
  {[ "Content-Type" := "application/json" ]}.

Definition includesChar (s sub : string) : bool :=
  match String.index 0 sub s with Some _ => true | None => false end.

(** In [{ "Content-Type": "application/json", ...tool.apiConfig.headers }]
    a key of the spread object replaces an earlier key of the same name;
    spreading [undefined] adds nothing. *)
Definition prepareRequest (tool : ApiTool.t) (parameters : gmap string JsVal)
  : RequestConfig.t :=
  let config := ApiTool.apiConfig tool in
  let headers := default ∅ (ApiConfig.headers config) ∪ contentTypeJson in
  let url := ApiConfig.endpoint config in
  let '(url, body) :=
    if String.eqb (ApiConfig.method config) "GET" then
      (url +:+ (if includesChar url "?" then "&" else "?")
           +:+ queryString rt parameters, None)
    else (url, Some (jsonStringify rt parameters)) in
  {| RequestConfig.url := url;
     RequestConfig.method := ApiConfig.method config;
     RequestConfig.headers := headers;
     RequestConfig.body := body;
     RequestConfig.timeout := orDefault (ApiConfig.timeout config) 30000 |}.

Definition abortMessage : string := "This operation was aborted".

Definition responseOk (status : Z) : bool :=
  (200 <=? status) && (status <=? 299).

(** The body of the [try] block of one attempt: what it returns or throws,
    and the milliseconds it takes.  The timer aborts a fetch that has not
    settled after [timeout] milliseconds. *)
Definition attemptResult (requestConfig : RequestConfig.t) (attempt : Z)
  : Exc (JsVal * Z) * Z :=
  let '(outcome, latency) := fetch env requestConfig attempt in
  let timeout := RequestConfig.timeout requestConfig in
  if timeout <? latency then (Throw (ErrorObject abortMessage), timeout)
  else
    match outcome with
    | FetchRejected message => (Throw (ErrorObject message), latency)
    | FetchResponded status statusText json =>
      if negb (responseOk status) then
        (Throw (ErrorObject ("HTTP " +:+ Js.decimal status +:+ ": "
                             +:+ statusText)), latency)
      else (data ← json; Ret (data, status), latency)
    end.

Definition attemptOnce (requestConfig : RequestConfig.t) (attempt : Z)
  (w : World) : Exc (JsVal * Z) * World :=
  let '(result, elapsed) := attemptResult requestConfig attempt in
  (result, {| clock := clock w + elapsed;
              ledger := ledger w;
              events := events w ++ [Fetched attempt requestConfig] |}).

(** [await new Promise(resolve => setTimeout(resolve, ms))]. *)
Definition sleep (ms : Z) (w : World) : World :=
  {| clock := clock w + ms; ledger := ledger w;
     events := events w ++ [Slept ms] |}.

(** The loop [for (attempt = 1; attempt <= maxRetries; attempt++)], with
    [left] the number of iterations still to run. *)
Fixpoint retryLoop (requestConfig : RequestConfig.t) (maxRetries : Z)
  (left : nat) (attempt : Z) (lastError : Thrown) (w : World)
  : Exc (JsVal * Z) * World :=
  match left with
  | O => (Throw lastError, w)
  | S left' =>
    match attemptOnce requestConfig attempt w with
    | (Ret result, w') => (Ret result, w')
    | (Throw error, w') =>
      let w' := if attempt <? maxRetries
                then sleep (2 ^ attempt * 1000) w' else w' in
      retryLoop requestConfig maxRetries left' (attempt + 1) error w'
    end
  end.

Definition executeWithRetries (requestConfig : RequestConfig.t)
  (maxRetries : Z) (w : World) : Exc (JsVal * Z) * World :=
  retryLoop requestConfig maxRetries (Z.to_nat maxRetries) 1
    ThrownUndefined w.

(** The document [new ToolUsage({...})]; [timestamp] takes its default. *)
Definition usageRecord (toolId userId sessionId : string)
  (parameters : gmap string JsVal) (response : ToolUsage.Response)
  (costInWei : string) (now : Z) : ToolUsage.t :=
  {| ToolUsage.toolId := toolId;
     ToolUsage.userId := userId;
     ToolUsage.sessionId := sessionId;
     ToolUsage.parameters := parameters;
     ToolUsage.response := response;
     ToolUsage.billing :=
       {| ToolUsage.costInWei := costInWei;
          ToolUsage.paid := false;
          ToolUsage.transactionHash := None;
          ToolUsage.paymentTimestamp := None |};
     ToolUsage.timestamp := now |}.

(** A failing [save] is caught and only logged to the console. *)
Definition logToolUsage (toolId userId sessionId : string)
  (parameters : gmap string JsVal) (response : ToolUsage.Response)
  (costInWei : string) (w : World) : World :=
  let usage := usageRecord toolId userId sessionId parameters response
                 costInWei (clock w) in
  if saveUsage env usage then
    {| clock := clock w; ledger := ledger w ++ [usage]; events := events w |}
  else w.

Definition errorMessageOf (error : Thrown) : string :=
  match error with
  | ErrorObject message => message
  | ThrownUndefined => "Unknown error"
  end.

(** The [try] block of [executeTool]. *)
Definition tryExecute (tool : ApiTool.t) (parameters : gmap string JsVal)
  (userId sessionId : string) (startTime : Z) (w : World)
  : Exc Result.t * World :=
  match validateParameters tool parameters with
  | Throw e => (Throw e, w)
  | Ret (valid, errors) =>
    if negb valid then
      (Ret {| Result.success := false;
              Result.data := None;
              Result.error := Some ("Parameter validation failed: "
                                    +:+ String.concat ", " errors);
              Result.statusCode := None;
              Result.executionTime := clock w - startTime;
              Result.toolId := ApiTool.toolId tool;
              Result.billing := ApiTool.pricing tool |}, w)
    else
      let requestConfig := prepareRequest tool parameters in
      match executeWithRetries requestConfig
              (orDefault (ApiConfig.retries (ApiTool.apiConfig tool)) 3) w with
      | (Throw e, w') => (Throw e, w')
      | (Ret (data, status), w') =>
        let executionTime := clock w' - startTime in
        let w'' :=
          logToolUsage (ApiTool.toolId tool) userId sessionId parameters
            {| ToolUsage.success := true;
               ToolUsage.data := Some data;
               ToolUsage.error := None;
               ToolUsage.statusCode := Some status;
               ToolUsage.executionTime := executionTime |}
            (Pricing.costInWei (ApiTool.pricing tool)) w' in
        (Ret {| Result.success := true;
                Result.data := Some data;
                Result.error := None;
                Result.statusCode := Some status;
                Result.executionTime := executionTime;
                Result.toolId := ApiTool.toolId tool;
                Result.billing := ApiTool.pricing tool |}, w'')
      end
  end.

Definition executeTool (tool : ApiTool.t) (parameters : gmap string JsVal)
  (userId sessionId : string) (w : World) : Result.t * World :=
  let startTime := clock w in
  match tryExecute tool parameters userId sessionId startTime w with
  | (Ret result, w') => (result, w')
  | (Throw error, w') =>
    let executionTime := clock w' - startTime in
    let errorMessage := errorMessageOf error in
    let w'' :=
      logToolUsage (ApiTool.toolId tool) userId sessionId parameters
        {| ToolUsage.success := false;
           ToolUsage.data := None;
           ToolUsage.error := Some errorMessage;
           ToolUsage.statusCode := None;
           ToolUsage.executionTime := executionTime |}
        (Pricing.costInWei (ApiTool.pricing tool)) w' in
    ({| Result.success := false;
        Result.data := None;
        Result.error := Some errorMessage;
        Result.statusCode := None;
        Result.executionTime := executionTime;
        Result.toolId := ApiTool.toolId tool;
        Result.billing := ApiTool.pricing tool |}, w'')
  end.

End Engine.

End ToolExecutor.

(** ** services/toolDiscovery.ts *)

Module ToolDiscovery.

(** [Partial<IApiTool>]: every top-level field may be absent. *)
Module Partial.
Record t : Type := {
  toolId : option string;
  userId : option string;
  name : option string;
  description : option string;
  category : option string;
  apiConfig : option ApiConfig.t;
  parameters : option (list Param.t);
  pricing : option Pricing.t;
  metadata : option Metadata.t;
  embedding : option (list float);
  createdAt : option Z;
  updatedAt : option Z;
}.
End Partial.

Module Filters.
Record t : Type := {
  category : option string;
  maxCost : option Z;
  tags : option (list string);
  userId : option string;
}.
End Filters.

(** The collaborators of the service.  The tool collection itself is the
    list of its documents in natural order. *)
Record Env : Type := {
  (** [OpenAIEmbeddings.embedQuery]; a rejected promise is a [Throw]. *)
  embedQuery : string -> Exc (list float);
  (** [Date.now()], and the [Math.random()] part of a fresh tool id. *)
  now : Z;
  randomSuffix : string;
  (** Whether [save] takes a new document into a collection (schema
      validators, unique index on [toolId]), and whether an update of a
      document is taken, given the other documents. *)
  saveAccepted : list ApiTool.t -> ApiTool.t -> bool;
  updateAccepted : list ApiTool.t -> ApiTool.t -> bool;
  (** [{ $regex: pattern, $options: "i" }] on a string field. *)
  regexMatches : string -> string -> bool;
}.

Definition storeError : Thrown := ErrorObject "the store rejected the write".

(** How a template literal prints an optional string. *)
Definition shown (o : option string) : string := default "undefined" o.

Definition truthy (o : option string) : bool :=
  match o with
  | Some (String _ _) => true
  | _ => false
  end.

Definition defaultMetadata : Metadata.t :=
  {| Metadata.tags := []; Metadata.version := "1.0.0";
     Metadata.isActive := true; Metadata.isPublic := true |}.

(** [new ApiTool(fields)] under the schema: defaults fill the absent
    optional paths; [None] when a required path is absent, in which case
    [save] rejects. *)
Definition construct (fields : Partial.t) (now : Z) : option ApiTool.t :=
  toolId ← Partial.toolId fields;
  userId ← Partial.userId fields;
  name ← Partial.name fields;
  description ← Partial.description fields;
  category ← Partial.category fields;
  config ← Partial.apiConfig fields;
  pricing ← Partial.pricing fields;
  Some
    {| ApiTool.toolId := toolId;
       ApiTool.userId := userId;
       ApiTool.name := name;
       ApiTool.description := description;
       ApiTool.category := category;
       ApiTool.apiConfig :=
         {| ApiConfig.endpoint := ApiConfig.endpoint config;
            ApiConfig.method := ApiConfig.method config;
            ApiConfig.headers :=
              Some (default ∅ (ApiConfig.headers config));
            ApiConfig.timeout :=
              Some (default 30000 (ApiConfig.timeout config));
            ApiConfig.retries :=
              Some (default 3 (ApiConfig.retries config)) |};
       ApiTool.parameters := default [] (Partial.parameters fields);
       ApiTool.pricing := pricing;
       ApiTool.metadata := default defaultMetadata (Partial.metadata fields);
       ApiTool.embedding := Partial.embedding fields;
       ApiTool.createdAt := default now (Partial.createdAt fields);
       ApiTool.updatedAt := default now (Partial.updatedAt fields) |}.

(** The query documents built by the search functions.  A string field is
    compared with a string operand of [$lte] as strings, character code by
    character code; [maxCost.toString()] is the decimal form for the
    integral [maxCost] modelled here. *)
Module Criteria.
Record t : Type := {
  isActive : option bool;
  isPublic : option bool;
  category : option string;
  costInWeiLte : option string;
  tagsIn : option (list string);
  userId : option string;
}.
End Criteria.

Section Service.
Context (env : Env).

(** The [searchText] of [registerApiTool]. *)
Definition registrationText (toolData : Partial.t) : string :=
  shown (Partial.name toolData) +:+ " "
  +:+ shown (Partial.description toolData) +:+ " "
  +:+ shown (Partial.category toolData) +:+ " "
  +:+ shown ((fun ps => String.concat " " (map Param.description ps))
             <$> Partial.parameters toolData).

Definition registerApiTool (store : list ApiTool.t) (userId : string)
  (toolData : Partial.t) : Exc ApiTool.t * list ApiTool.t :=
  match embedQuery env (registrationText toolData) with
  | Throw e => (Throw e, store)
  | Ret embedding =>
    let fields :=
      {| Partial.toolId :=
           Some ("tool_" +:+ Js.decimal (now env) +:+ "_"
                 +:+ randomSuffix env);
         Partial.userId := Some userId;
         Partial.name := Partial.name toolData;
         Partial.description := Partial.description toolData;
         Partial.category := Partial.category toolData;
         Partial.apiConfig := Partial.apiConfig toolData;
         Partial.parameters := Partial.parameters toolData;
         Partial.pricing := Partial.pricing toolData;
         Partial.metadata := Partial.metadata toolData;
         Partial.embedding := Some embedding;
         Partial.createdAt := Partial.createdAt toolData;
         Partial.updatedAt := Some (now env) |} in
    match construct fields (now env) with
    | Some tool =>
      if saveAccepted env store tool then (Ret tool, store ++ [tool])
      else (Throw storeError, store)
    | None => (Throw storeError, store)
    end
  end.

Definition byToolId (toolId : string) (tool : ApiTool.t) : bool :=
  String.eqb (ApiTool.toolId tool) toolId.

(** [ApiTool.findOne({ toolId, "metadata.isActive": true })]. *)
Definition getToolById (store : list ApiTool.t) (toolId : string)
  : option ApiTool.t :=
  List.find
    (fun tool => byToolId toolId tool
                 && Bool.eqb (Metadata.isActive (ApiTool.metadata tool)) true)
    store.

(** The update document [{ ...updates, updatedAt: new Date() }] applied to
    a stored tool: each field present replaces the stored one. *)
Definition applyUpdates (updates : Partial.t) (tool : ApiTool.t)
  : ApiTool.t :=
  {| ApiTool.toolId := default (ApiTool.toolId tool) (Partial.toolId updates);
     ApiTool.userId := default (ApiTool.userId tool) (Partial.userId updates);
     ApiTool.name := default (ApiTool.name tool) (Partial.name updates);
     ApiTool.description :=
       default (ApiTool.description tool) (Partial.description updates);
     ApiTool.category :=
       default (ApiTool.category tool) (Partial.category updates);
     ApiTool.apiConfig :=
       default (ApiTool.apiConfig tool) (Partial.apiConfig updates);
     ApiTool.parameters :=
       default (ApiTool.parameters tool) (Partial.parameters updates);
     ApiTool.pricing :=
       default (ApiTool.pricing tool) (Partial.pricing updates);
     ApiTool.metadata :=
       default (ApiTool.metadata tool) (Partial.metadata updates);
     ApiTool.embedding :=
       match Partial.embedding updates with
       | Some e => Some e
       | None => ApiTool.embedding tool
       end;
     ApiTool.createdAt :=
       default (ApiTool.createdAt tool) (Partial.createdAt updates);
     ApiTool.updatedAt := now env |}.

(** [findOneAndUpdate(filter, update, { new: true })] and [updateOne]: the
    first document that matches is replaced; [None] when none matches. *)
Fixpoint updateFirst (matches : ApiTool.t -> bool)
  (update : ApiTool.t -> ApiTool.t) (store : list ApiTool.t)
  : option (ApiTool.t * ApiTool.t * list ApiTool.t) :=
  match store with
  | [] => None
  | tool :: rest =>
    if matches tool then Some (tool, update tool, update tool :: rest)
    else
      '(old, new, rest') ← updateFirst matches update rest;
      Some (old, new, tool :: rest')
  end.

Definition withEmbedding (updates : Partial.t) (embedding : list float)
  : Partial.t :=
  {| Partial.toolId := Partial.toolId updates;
     Partial.userId := Partial.userId updates;
     Partial.name := Partial.name updates;
     Partial.description := Partial.description updates;
     Partial.category := Partial.category updates;
     Partial.apiConfig := Partial.apiConfig updates;
     Partial.parameters := Partial.parameters updates;
     Partial.pricing := Partial.pricing updates;
     Partial.metadata := Partial.metadata updates;
     Partial.embedding := Some embedding;
     Partial.createdAt := Partial.createdAt updates;
     Partial.updatedAt := Partial.updatedAt updates |}.

Definition updateSearchText (updates : Partial.t) : string :=
  shown (Partial.name updates) +:+ " "
  +:+ shown (Partial.description updates) +:+ " "
  +:+ shown (Partial.category updates).

Definition updateTool (store : list ApiTool.t) (toolId : string)
  (updates : Partial.t) : Exc (option ApiTool.t) * list ApiTool.t :=
  let regenerated : Exc Partial.t :=
    if truthy (Partial.name updates) || truthy (Partial.description updates)
       || truthy (Partial.category updates)
    then embedding ← embedQuery env (updateSearchText updates);
         Ret (withEmbedding updates embedding)
    else Ret updates in
  match regenerated with
  | Throw e => (Throw e, store)
  | Ret updates =>
    match updateFirst (byToolId toolId) (applyUpdates updates) store with
    | None => (Ret None, store)
    | Some (old, new, store') =>
      if updateAccepted env store' new then (Ret (Some new), store')
      else (Throw storeError, store)
    end
  end.

Definition deactivate (tool : ApiTool.t) : ApiTool.t :=
  {| ApiTool.toolId := ApiTool.toolId tool;
     ApiTool.userId := ApiTool.userId tool;
     ApiTool.name := ApiTool.name tool;
     ApiTool.description := ApiTool.description tool;
     ApiTool.category := ApiTool.category tool;
     ApiTool.apiConfig := ApiTool.apiConfig tool;
     ApiTool.parameters := ApiTool.parameters tool;
     ApiTool.pricing := ApiTool.pricing tool;
     ApiTool.metadata :=
       {| Metadata.tags := Metadata.tags (ApiTool.metadata tool);
          Metadata.version := Metadata.version (ApiTool.metadata tool);
          Metadata.isActive := false;
          Metadata.isPublic := Metadata.isPublic (ApiTool.metadata tool) |};
     ApiTool.embedding := ApiTool.embedding tool;
     ApiTool.createdAt := ApiTool.createdAt tool;
     ApiTool.updatedAt := now env |}.

(** [result.modifiedCount > 0]: a matched document counts as modified when
    the update changed one of its fields. *)
Definition deactivateTool (store : list ApiTool.t) (toolId : string)
  : bool * list ApiTool.t :=
  match updateFirst (byToolId toolId) deactivate store with
  | None => (false, store)
  | Some (old, _, store') =>
    (Metadata.isActive (ApiTool.metadata old)
     || negb (ApiTool.updatedAt old =? now env), store')
  end.

Definition holds {A} (criterion : option A) (test : A -> bool) : bool :=
  match criterion with
  | Some c => test c
  | None => true
  end.

Definition matches (criteria : Criteria.t) (tool : ApiTool.t) : bool :=
  holds (Criteria.isActive criteria)
    (Bool.eqb (Metadata.isActive (ApiTool.metadata tool)))
  && holds (Criteria.isPublic criteria)
       (Bool.eqb (Metadata.isPublic (ApiTool.metadata tool)))
  && holds (Criteria.category criteria)
       (fun pattern => regexMatches env pattern (ApiTool.category tool))
  && holds (Criteria.costInWeiLte criteria)
       (fun operand =>
          String.leb (Pricing.costInWei (ApiTool.pricing tool)) operand)
  && holds (Criteria.tagsIn criteria)
       (fun wanted =>
          existsb (fun tag => existsb (String.eqb tag) wanted)
            (Metadata.tags (ApiTool.metadata tool)))
  && holds (Criteria.userId criteria) (String.eqb (ApiTool.userId tool)).

(** [ApiTool.find(criteria)]. *)
Definition find (criteria : Criteria.t) (store : list ApiTool.t)
  : list ApiTool.t :=
  List.filter (matches criteria) store.

Definition globalCriteria (filters : Filters.t) : Criteria.t :=
  let owner :=
    if truthy (Filters.userId filters) then Filters.userId filters
    else None in
  {| Criteria.isActive := Some true;
     Criteria.isPublic := match owner with Some _ => None | None => Some true end;
     Criteria.category :=
       if truthy (Filters.category filters) then Filters.category filters
       else None;
     Criteria.costInWeiLte := Js.decimal <$> Filters.maxCost filters;
     Criteria.tagsIn :=
       match Filters.tags filters with
       | Some ((_ :: _) as tags) => Some tags
       | _ => None
       end;
     Criteria.userId := owner |}.

(** [String.prototype.trim], on ASCII white space. *)
Fixpoint trimStart (s : string) : string :=
  match s with
  | String c s' => if Ascii.is_space c then trimStart s' else s
  | "" => ""
  end.

Definition trim (s : string) : string :=
  String.rev (trimStart (String.rev (trimStart s))).

Record Ranked : Type := {
  tool : ApiTool.t;
  similarity : float;
}.

(** The [filter] and [map] steps: tools without a non-empty embedding are
    dropped, the others are scored. *)
Fixpoint score (queryEmbedding : list float) (tools : list ApiTool.t)
  : Exc (list Ranked) :=
  match tools with
  | [] => Ret []
  | t :: rest =>
    match ApiTool.embedding t with
    | Some ((_ :: _) as embedding) =>
      s ← VectorUtils.cosineSimilarity queryEmbedding embedding;
      ranked ← score queryEmbedding rest;
      Ret ({| tool := t; similarity := s |} :: ranked)
    | _ => score queryEmbedding rest
    end
  end.

Definition searchToolsGlobally (store : list ApiTool.t) (query : string)
  (filters : Filters.t) (limit : option Z) : Exc (list ApiTool.t) :=
  if String.eqb (trim query) "" then
    Throw (ErrorObject "Query must be a non-empty string")
  else
    queryEmbedding ← embedQuery env (trim query);
    let tools := find (globalCriteria filters) store in
    toolsWithScores ← score queryEmbedding tools;
    Ret (tool <$>
         VectorUtils.slice0
           (VectorUtils.sort
              (fun a b => (similarity b - similarity a)%float)
              toolsWithScores)
           (default 10 limit)).

(** [sort({ createdAt: -1 })]; documents created at the same instant keep
    their natural order.  The cursor sorts before it limits; a limit of 0
    is no limit, and a negative one counts by its absolute value. *)
Fixpoint insertNewestFirst (t : ApiTool.t) (l : list ApiTool.t)
  : list ApiTool.t :=
  match l with
  | [] => [t]
  | u :: l' =>
    if ApiTool.createdAt t <? ApiTool.createdAt u
    then u :: insertNewestFirst t l' else t :: l
  end.

Definition getToolsByCategory (store : list ApiTool.t) (category : string)
  (maxCost : option Z) (limit : option Z) : list ApiTool.t :=
  let criteria :=
    {| Criteria.isActive := Some true;
       Criteria.isPublic := Some true;
       Criteria.category := Some category;
       Criteria.costInWeiLte := Js.decimal <$> maxCost;
       Criteria.tagsIn := None;
       Criteria.userId := None |} in
  let sorted := foldr insertNewestFirst [] (find criteria store) in
  let n := default 20 limit in
  if n =? 0 then sorted else take (Z.to_nat (Z.abs n)) sorted.

(** The search over one user's own tools. *)
Definition searchTools (store : list ApiTool.t) (userId query : string)
  (category : option string) (limit : option Z) : Exc (list ApiTool.t) :=
  if String.eqb (trim query) "" then
    Throw (ErrorObject "Query must be a non-empty string")
  else
    queryEmbedding ← embedQuery env (trim query);
    let searchCriteria :=
      {| Criteria.isActive := Some true;
         Criteria.isPublic := None;
         Criteria.category := if truthy category then category else None;
         Criteria.costInWeiLte := None;
         Criteria.tagsIn := None;
         Criteria.userId := Some userId |} in
    let tools := find searchCriteria store in
    toolsWithScores ← score queryEmbedding tools;
    Ret (tool <$>
         VectorUtils.slice0
           (VectorUtils.sort
              (fun a b => (similarity b - similarity a)%float)
              toolsWithScores)
           (default 10 limit)).

(** A string of white space only. *)
Fixpoint blank (s : string) : bool :=
  match s with
  | "" => true
  | String c s' => Ascii.is_space c && blank s'
  end.

End Service.

End ToolDiscovery.

(** Vocabulary for the statements about the execution engine. *)

Module Schedule.
Import ToolExecutor.

(** The calls an execution makes when each of its [m] attempts fails:
    attempt [n], followed by a pause of [2^n] seconds unless it was the
    last. *)
Definition failing (request : RequestConfig.t) (m : Z) : list Event :=
  n ← seqZ 1 m;
  if n <? m then [Fetched n request; Slept (2 ^ n * 1000)]
  else [Fetched n request].

Definition isFetched (e : Event) : bool :=
  match e with Fetched _ _ => true | Slept _ => false end.

(** The result of a call that ends in failure, and the response part of the
    usage record written by the [catch] block. *)
Definition failure (tool : ApiTool.t) (message : string) (executionTime : Z)
  : Result.t :=
  {| Result.success := false;
     Result.data := None;
     Result.error := Some message;
     Result.statusCode := None;
     Result.executionTime := executionTime;
     Result.toolId := ApiTool.toolId tool;
     Result.billing := ApiTool.pricing tool |}.

Definition failedResponse (message : string) (executionTime : Z)
  : ToolUsage.Response :=
  {| ToolUsage.success := false;
     ToolUsage.data := None;
     ToolUsage.error := Some message;
     ToolUsage.statusCode := None;
     ToolUsage.executionTime := executionTime |}.

(** The calls of an execution whose attempt [k] is the first to succeed:
    each earlier attempt is followed by its pause. *)
Definition succeedingAt (request : RequestConfig.t) (k : Z) : list Event :=
  (n ← seqZ 1 (k - 1); [Fetched n request; Slept (2 ^ n * 1000)])
  ++ [Fetched k request].


(** The response part of the usage record written after a success. *)
Definition succeededResponse (data : JsVal) (status executionTime : Z)
  : ToolUsage.Response :=
  {| ToolUsage.success := true;
     ToolUsage.data := Some data;
     ToolUsage.error := None;
     ToolUsage.statusCode := Some status;
     ToolUsage.executionTime := executionTime |}.

(** An endpoint that answers HTTP 503 to the first two attempts and
    HTTP 200 with [true] from the third on. *)
Definition recovering : Env :=
  {| fetch := fun _ attempt =>
       if attempt <? 3
       then (FetchResponded 503 "Service Unavailable" (Ret JNull), 10)
       else (FetchResponded 200 "OK" (Ret (JBool true)), 10);
     saveUsage := fun _ => true |}.

End Schedule.

(** Concrete tools and environments for the examples. *)

Module Samples.
Import ToolExecutor.

(** A runtime for closed examples; they do not depend on what its
    functions return. *)
Definition runtime : Runtime :=
  {| regExpTest := fun _ _ => Ret true;
     coerceNumber := fun _ => nan;
     numberToString := fun _ => "";
     valueToString := fun _ => "";
     queryString := fun _ => "";
     jsonStringify := fun _ => "{}" |}.

Definition tool (headers : option (gmap string string)) (retries : option Z)
  (parameters : list Param.t) : ApiTool.t :=
  {| ApiTool.toolId := "tool_1";
     ApiTool.userId := "owner";
     ApiTool.name := "weather";
     ApiTool.description := "current weather";
     ApiTool.category := "data";
     ApiTool.apiConfig :=
       {| ApiConfig.endpoint := "https://api.example.com/weather";
          ApiConfig.method := "POST";
          ApiConfig.headers := headers;
          ApiConfig.timeout := Some 30000;
          ApiConfig.retries := retries |};
     ApiTool.parameters := parameters;
     ApiTool.pricing :=
       {| Pricing.costInWei := "1000"; Pricing.ethCost := None |};
     ApiTool.metadata :=
       {| Metadata.tags := []; Metadata.version := "1.0.0";
          Metadata.isActive := true; Metadata.isPublic := true |};
     ApiTool.embedding := Some [1%float];
     ApiTool.createdAt := 0;
     ApiTool.updatedAt := 0 |}.

Definition requiredCity : Param.t :=
  {| Param.name := "city"; Param.type := "string"; Param.required := true;
     Param.description := "city name"; Param.defaultValue := None;
     Param.validation := None |}.

(** A numeric parameter with a lower bound and no [enum]. *)
Definition boundedCount : Param.t :=
  {| Param.name := "count"; Param.type := "number"; Param.required := false;
     Param.description := "how many"; Param.defaultValue := None;
     Param.validation :=
       Some {| Validation.min := Some 0%float; Validation.max := None;
               Validation.pattern := None; Validation.enum := None |} |}.

(** An endpoint that answers every attempt with HTTP 500 after 10 ms, and a
    store that takes every record. *)
Definition alwaysFailing : Env :=
  {| fetch := fun _ _ =>
       (FetchResponded 500 "Internal Server Error" (Ret JNull), 10);
     saveUsage := fun _ => true |}.

Definition start : World := {| clock := 0; ledger := []; events := [] |}.

(** Collaborators of the discovery service: an embedding service that
    answers every text with the same vector, and a store that takes every
    write. *)
Definition collaborators : ToolDiscovery.Env :=
  {| ToolDiscovery.embedQuery := fun _ => Ret [1%float; 0%float];
     ToolDiscovery.now := 1700000000000;
     ToolDiscovery.randomSuffix := "k3x9q2a7b";
     ToolDiscovery.saveAccepted := fun _ _ => true;
     ToolDiscovery.updateAccepted := fun _ _ => true;
     ToolDiscovery.regexMatches := fun _ _ => true |}.

(** A stored tool with the given id, price, activity flag and embedding. *)
Definition stored (toolId costInWei : string) (isActive : bool)
  (embedding : list float) : ApiTool.t :=
  {| ApiTool.toolId := toolId;
     ApiTool.userId := "owner";
     ApiTool.name := "weather";
     ApiTool.description := "current weather";
     ApiTool.category := "data";
     ApiTool.apiConfig :=
       {| ApiConfig.endpoint := "https://api.example.com/weather";
          ApiConfig.method := "POST";
          ApiConfig.headers := Some ∅;
          ApiConfig.timeout := Some 30000;
          ApiConfig.retries := Some 3 |};
     ApiTool.parameters := [];
     ApiTool.pricing :=
       {| Pricing.costInWei := costInWei; Pricing.ethCost := None |};
     ApiTool.metadata :=
       {| Metadata.tags := []; Metadata.version := "1.0.0";
          Metadata.isActive := isActive; Metadata.isPublic := true |};
     ApiTool.embedding := Some embedding;
     ApiTool.createdAt := 0;
     ApiTool.updatedAt := 0 |}.

Definition noUpdates : ToolDiscovery.Partial.t :=
  {| ToolDiscovery.Partial.toolId := None;
     ToolDiscovery.Partial.userId := None;
     ToolDiscovery.Partial.name := None;
     ToolDiscovery.Partial.description := None;
     ToolDiscovery.Partial.category := None;
     ToolDiscovery.Partial.apiConfig := None;
     ToolDiscovery.Partial.parameters := None;
     ToolDiscovery.Partial.pricing := None;
     ToolDiscovery.Partial.metadata := None;
     ToolDiscovery.Partial.embedding := None;
     ToolDiscovery.Partial.createdAt := None;
     ToolDiscovery.Partial.updatedAt := None |}.

(** The patch [{ name: "" }]. *)
Definition emptyName : ToolDiscovery.Partial.t :=
  {| ToolDiscovery.Partial.toolId := None;
     ToolDiscovery.Partial.userId := None;
     ToolDiscovery.Partial.name := Some "";
     ToolDiscovery.Partial.description := None;
     ToolDiscovery.Partial.category := None;
     ToolDiscovery.Partial.apiConfig := None;
     ToolDiscovery.Partial.parameters := None;
     ToolDiscovery.Partial.pricing := None;
     ToolDiscovery.Partial.metadata := None;
     ToolDiscovery.Partial.embedding := None;
     ToolDiscovery.Partial.createdAt := None;
     ToolDiscovery.Partial.updatedAt := None |}.

(** The patch [{ embedding: [5] }]. *)
Definition ownEmbedding : ToolDiscovery.Partial.t :=
  {| ToolDiscovery.Partial.toolId := None;
     ToolDiscovery.Partial.userId := None;
     ToolDiscovery.Partial.name := None;
     ToolDiscovery.Partial.description := None;
     ToolDiscovery.Partial.category := None;
     ToolDiscovery.Partial.apiConfig := None;
     ToolDiscovery.Partial.parameters := None;
     ToolDiscovery.Partial.pricing := None;
     ToolDiscovery.Partial.metadata := None;
     ToolDiscovery.Partial.embedding := Some [5%float];
     ToolDiscovery.Partial.createdAt := None;
     ToolDiscovery.Partial.updatedAt := None |}.

(** The patch [{ pricing: { costInWei: "2000" } }]. *)
Definition newPrice : ToolDiscovery.Partial.t :=
  {| ToolDiscovery.Partial.toolId := None;
     ToolDiscovery.Partial.userId := None;
     ToolDiscovery.Partial.name := None;
     ToolDiscovery.Partial.description := None;
     ToolDiscovery.Partial.category := None;
     ToolDiscovery.Partial.apiConfig := None;
     ToolDiscovery.Partial.parameters := None;
     ToolDiscovery.Partial.pricing :=
       Some {| Pricing.costInWei := "2000"; Pricing.ethCost := None |};
     ToolDiscovery.Partial.metadata := None;
     ToolDiscovery.Partial.embedding := None;
     ToolDiscovery.Partial.createdAt := None;
     ToolDiscovery.Partial.updatedAt := None |}.

(** A registration request. *)
Definition newTool : ToolDiscovery.Partial.t :=
  {| ToolDiscovery.Partial.toolId := None;
     ToolDiscovery.Partial.userId := None;
     ToolDiscovery.Partial.name := Some "weather";
     ToolDiscovery.Partial.description := Some "current weather";
     ToolDiscovery.Partial.category := Some "data";
     ToolDiscovery.Partial.apiConfig :=
       Some {| ApiConfig.endpoint := "https://api.example.com/weather";
               ApiConfig.method := "GET";
               ApiConfig.headers := None;
               ApiConfig.timeout := None;
               ApiConfig.retries := None |};
     ToolDiscovery.Partial.parameters := Some [requiredCity];
     ToolDiscovery.Partial.pricing :=
       Some {| Pricing.costInWei := "1000"; Pricing.ethCost := None |};
     ToolDiscovery.Partial.metadata := None;
     ToolDiscovery.Partial.embedding := None;
     ToolDiscovery.Partial.createdAt := None;
     ToolDiscovery.Partial.updatedAt := None |}.

Definition costAtMost (maxCost : Z) : ToolDiscovery.Filters.t :=
  {| ToolDiscovery.Filters.category := None;
     ToolDiscovery.Filters.maxCost := Some maxCost;
     ToolDiscovery.Filters.tags := None;
     ToolDiscovery.Filters.userId := None |}.

End Samples.

(** ** middleware/rateLimiter.ts *)

Module RateLimiter.

Record ClientData : Type := {
  count : Z;
  resetTime : Z;
}.

(** [req.ip || 'unknown']. *)
Definition clientOf (ip : option string) : string :=
  match ip with
  | Some (String _ _ as address) => address
  | _ => "unknown"
  end.

(** A middleware, applied to one request: the address of the client, the
    time [Date.now()] and the map [requestCounts] of the module, which all
    limiters share.  It gives [true] when [next()] is called and [false]
    when the request is answered with status 429, and the map as the
    request leaves it. *)
Definition Limiter : Type :=
  option string -> Z -> gmap string ClientData
  -> bool * gmap string ClientData.

(** [clientData.count++] updates the entry of the map in place. *)
Definition createLimiter (windowMs max : Z) : Limiter :=
  fun ip now requestCounts =>
  let clientId := clientOf ip in
  let opened :=
    <[clientId := {| count := 1; resetTime := now + windowMs |}]>
      requestCounts in
  match requestCounts !! clientId with
  | None => (true, opened)
  | Some clientData =>
    if resetTime clientData <? now then (true, opened)
    else if max <=? count clientData then (false, requestCounts)
    else (true,
          <[clientId := {| count := count clientData + 1;
                           resetTime := resetTime clientData |}]>
            requestCounts)
  end.

Definition generalLimiter : Limiter := createLimiter (15 * 60 * 1000) 100.
Definition strictLimiter : Limiter := createLimiter (15 * 60 * 1000) 5.

(** A client's requests at the given times, one after the other, through
    one limiter. *)
Fixpoint serve (limiter : Limiter) (ip : option string) (times : list Z)
  (requestCounts : gmap string ClientData)
  : list bool * gmap string ClientData :=
  match times with
  | [] => ([], requestCounts)
  | now :: later =>
    let '(admitted, requestCounts) := limiter ip now requestCounts in
    let '(rest, requestCounts) := serve limiter ip later requestCounts in
    (admitted :: rest, requestCounts)
  end.

End RateLimiter.

(** ** controllers/AppController.ts: the tool execution endpoint *)

Module AppController.

Definition getToolHealthStatus (successRate avgExecutionTime : float)
  : string :=
  if (0.95 <=? successRate)%float && (avgExecutionTime <? 5000)%float
  then "healthy"
  else if (0.85 <=? successRate)%float && (avgExecutionTime <? 10000)%float
  then "warning"
  else "critical".

(** What the handler sends: the status code and the [ApiResponse], whose
    [data] is the engine's result together with [billing.formatted]. *)
Record Response : Type := {
  status : Z;
  success : bool;
  message : string;
  data : option (ToolExecutor.Result.t * string);
}.

(** [POST /user/tools/execute].  [userId] is [req.user?.uid]; [toolId],
    [parameters] and [sessionId] are read from the body, [parameters]
    being an object when present; [generatedId] is what [generateId()]
    would return.  A [formatWei] that gives no string ends in the [catch]
    block. *)
Definition executeTool (rt : ToolExecutor.Runtime) (env : ToolExecutor.Env)
  (store : list ApiTool.t) (userId toolId : option string)
  (parameters : option (gmap string JsVal)) (sessionId : option string)
  (generatedId : string) (w : ToolExecutor.World)
  : Response * ToolExecutor.World :=
  match userId, toolId, parameters with
  | Some (String _ _ as userId), Some (String _ _ as toolId),
    Some parameters =>
    match ToolDiscovery.getToolById store toolId with
    | None =>
      ({| status := 404; success := false;
          message := "Tool not found or inactive"; data := None |}, w)
    | Some tool =>
      let session :=
        if ToolDiscovery.truthy sessionId then default "" sessionId
        else generatedId in
      let '(result, w') :=
        ToolExecutor.executeTool rt env tool parameters userId session w in
      match EthUtils.formatWei
              (Pricing.costInWei (ToolExecutor.Result.billing result)) with
      | Some formatted =>
        ({| status := if ToolExecutor.Result.success result
                      then 200 else 400;
            success := ToolExecutor.Result.success result;
            message := if ToolExecutor.Result.success result
                       then "Tool executed successfully"
                       else "Tool execution failed";
            data := Some (result, formatted) |}, w')
      | None =>
        ({| status := 500; success := false;
            message := "Failed to execute tool"; data := None |}, w')
      end
    end
  | Some (String _ _), _, _ =>
    ({| status := 400; success := false;
        message := "Tool ID and parameters are required"; data := None |}, w)
  | _, _, _ =>
    ({| status := 400; success := false;
        message := "User ID not found in token"; data := None |}, w)
  end.

End AppController.

(* ================================================================== *)
(** * Properties *)

(** ** Order on binary64 values *)

Section FloatOrder.

Lemma SFleb_trans a b c :
  SFleb a b = true -> SFleb b c = true -> SFleb a c = true.
Proof.
  unfold SFleb.
  destruct a as [sa|sa| |sa ma ea], b as [sb|sb| |sb mb eb],
           c as [sc|sc| |sc mc ec];
    cbn; try discriminate; try reflexivity;
    repeat match goal with s : bool |- _ => destruct s end;
    cbn; try discriminate; try reflexivity; try tauto.
  all: change (Pos.compare_cont Eq) with Pos.compare.
  all: destruct (Z.compare_spec ea eb), (Z.compare_spec eb ec),
         (Z.compare_spec ea ec);
    try discriminate; try reflexivity; try lia; subst.
  all: destruct (Pos.compare_spec ma mb), (Pos.compare_spec mb mc),
         (Pos.compare_spec ma mc);
    cbn; try discriminate; try reflexivity; try lia.
Qed.

Lemma SFcompare_swap a b :
  SFcompare b a = CompOpp <$> SFcompare a b.
Proof.
  destruct a as [sa|sa| |sa ma ea], b as [sb|sb| |sb mb eb];
    cbn; try reflexivity;
    repeat match goal with s : bool |- _ => destruct s end;
    cbn; try reflexivity.
  all: change (Pos.compare_cont Eq) with Pos.compare.
  all: rewrite (Z.compare_antisym ea eb); destruct (ea ?= eb);
    cbn; try reflexivity.
  all: rewrite (Pos.compare_antisym ma mb);
    destruct (ma ?= mb)%positive; reflexivity.
Qed.

Lemma float_leb_trans (x y z : float) :
  (x <=? y)%float = true -> (y <=? z)%float = true -> (x <=? z)%float = true.
Proof. rewrite !leb_spec. apply SFleb_trans. Qed.

Lemma float_ltb_leb (x y : float) :
  (x <? y)%float = true -> (x <=? y)%float = true.
Proof.
  rewrite ltb_spec, leb_spec. unfold SFltb, SFleb.
  destruct (SFcompare _ _) as [[]|]; congruence.
Qed.

Lemma float_ltb_not_leb (x y : float) :
  (x <? y)%float = true -> (y <=? x)%float = false.
Proof.
  rewrite ltb_spec, leb_spec. unfold SFltb, SFleb.
  rewrite (SFcompare_swap (Prim2SF x) (Prim2SF y)).
  destruct (SFcompare _ _) as [[]|]; cbn; congruence.
Qed.

Lemma SFleb_ltb_trans a b c :
  SFleb a b = true -> SFltb b c = true -> SFltb a c = true.
Proof.
  unfold SFleb, SFltb.
  destruct a as [sa|sa| |sa ma ea], b as [sb|sb| |sb mb eb],
           c as [sc|sc| |sc mc ec];
    cbn; try discriminate; try reflexivity;
    repeat match goal with s : bool |- _ => destruct s end;
    cbn; try discriminate; try reflexivity; try tauto.
  all: change (Pos.compare_cont Eq) with Pos.compare.
  all: destruct (Z.compare_spec ea eb), (Z.compare_spec eb ec),
         (Z.compare_spec ea ec);
    try discriminate; try reflexivity; try lia; subst.
  all: destruct (Pos.compare_spec ma mb), (Pos.compare_spec mb mc),
         (Pos.compare_spec ma mc);
    cbn; try discriminate; try reflexivity; try lia.
Qed.

Lemma float_leb_ltb_trans (x y z : float) :
  (x <=? y)%float = true -> (y <? z)%float = true -> (x <? z)%float = true.
Proof. rewrite !leb_spec, !ltb_spec. apply SFleb_ltb_trans. Qed.

Lemma float_leb_nan_r (x : float) : (x <=? nan)%float = false.
Proof.
  rewrite leb_spec. unfold SFleb.
  change (Prim2SF nan) with S754_nan.
  by destruct (Prim2SF x) as [[]|[]| |[] ? ?].
Qed.

Lemma float_ltb_nan_l (x : float) : (nan <? x)%float = false.
Proof.
  rewrite ltb_spec. unfold SFltb.
  change (Prim2SF nan) with S754_nan. done.
Qed.

End FloatOrder.

(** ** [findMostSimilar] *)

Section FindMostSimilar.
Import VectorUtils Ranking.
Local Arguments cosineSimilarity : simpl never.

Lemma insert_Permutation {A} (c : A -> A -> float) x l :
  insert c x l ≡ₚ x :: l.
Proof.
  induction l as [|y l IH]; cbn; [done|].
  destruct (0 <? c x y)%float; [|done].
  rewrite IH. apply Permutation_swap.
Qed.

Lemma sort_Permutation {A} (c : A -> A -> float) l : sort c l ≡ₚ l.
Proof.
  induction l as [|x l IH]; cbn; [done|].
  unfold sort in IH. by rewrite insert_Permutation, IH.
Qed.

Lemma verdictsAgree_elem scores x y :
  verdictsAgree scores = true -> x ∈ scores -> y ∈ scores ->
  verdictAgrees x y = true.
Proof.
  unfold verdictsAgree. rewrite forallb_forall. intros H Hx Hy.
  apply list_elem_of_In in Hx, Hy.
  specialize (H x Hx). rewrite forallb_forall in H. by apply H.
Qed.

(** Inserting an element that stood before all of [l]. *)
Lemma insert_StronglySorted x l :
  StronglySorted ranksBefore l ->
  Forall (fun y => (index x < index y)%nat /\
                   verdictAgrees (similarity x) (similarity y) = true) l ->
  StronglySorted ranksBefore (insert bySimilarityDesc x l).
Proof.
  induction 1 as [|y l Hl IH Hy]; intros Hx; cbn.
  - repeat constructor.
  - apply Forall_cons in Hx as [[Hidx Hv] Hx].
    unfold bySimilarityDesc at 1. unfold verdictAgrees in Hv.
    destruct (0 <? similarity y - similarity x)%float.
    + constructor; [by apply IH|].
      rewrite insert_Permutation. constructor; [|done].
      split; [by apply float_ltb_leb|].
      intros Hle. by rewrite (float_ltb_not_leb _ _ Hv) in Hle.
    + constructor; [by constructor|].
      constructor; [by split|].
      eapply Forall_impl; [apply Forall_and; split; [apply Hy|apply Hx]|].
      intros z [[Hzy _] [Hxz _]]. split; [|done].
      eapply float_leb_trans; eauto.
Qed.

Lemma sort_StronglySorted l :
  StronglySorted (fun u v => (index u < index v)%nat) l ->
  verdictsAgree (similarity <$> l) = true ->
  StronglySorted ranksBefore (sort bySimilarityDesc l).
Proof.
  intros Hidx Hv.
  assert (Hin : forall u v, u ∈ l -> v ∈ l ->
            verdictAgrees (similarity u) (similarity v) = true).
  { intros u v Hu Hw.
    apply (verdictsAgree_elem _ _ _ Hv); by apply list_elem_of_fmap_2. }
  clear Hv. induction Hidx as [|x l Hl IH Hx]; cbn; [constructor|].
  apply insert_StronglySorted.
  - apply IH. intros u v Hu Hw. apply Hin; by right.
  - fold (sort bySimilarityDesc l). rewrite sort_Permutation.
    apply Forall_forall. intros y Hy. split.
    + by eapply Forall_forall in Hx.
    + apply Hin; [by left|by right].
Qed.

Lemma StronglySorted_take {A} (R : A -> A -> Prop) n l :
  StronglySorted R l -> StronglySorted R (take n l).
Proof.
  intros H. revert n. induction H as [|x l Hl IH Hx]; intros [|n]; cbn;
    try constructor; [apply IH|].
  eapply Forall_forall. intros y Hy.
  eapply Forall_forall in Hx; [done|]. eapply subseteq_take, Hy.
Qed.

(** What the [map] of [findMostSimilar] computes when every candidate has
    the query's length. *)
Lemma similaritiesFrom_spec i q vs :
  Forall (fun v => length v = length q) vs ->
  exists all,
    similaritiesFrom i q vs = Ret all /\
    length all = length vs /\
    similarity <$> all = scores q vs /\
    StronglySorted (fun u v => (index u < index v)%nat) all /\
    Forall (fun r => (i <= index r)%nat) all /\
    (forall k r, all !! k = Some r ->
       index r = (i + k)%nat /\ vs !! k = Some (vector r) /\
       cosineSimilarity q (vector r) = Ret (similarity r)).
Proof.
  intros H. revert i. induction H as [|v vs Hv Hvs IH]; intros i; cbn.
  - exists []. split_and!; try done; constructor.
  - destruct (IH (S i)) as (rest & Hrest & Hlen & Hsc & Hsorted & Hge & Hk).
    assert (Hret : exists s, cosineSimilarity q v = Ret s).
    { unfold cosineSimilarity. rewrite Hv, Nat.eqb_refl. cbn.
      destruct (length q =? 0)%nat; [by eexists|].
      destruct (accumulate q v _) as [[d na] nb].
      destruct (_ || _); by eexists. }
    destruct Hret as [s Hs].
    exists ({| index := i; similarity := s; vector := v |} :: rest).
    unfold scores. cbn. rewrite Hs, Hrest. cbn.
    split_and!; [done|..].
    + cbn. by rewrite Hlen.
    + cbn. by rewrite Hsc.
    + constructor; [done|]. cbn.
      eapply Forall_impl; [apply Hge|]. cbn. lia.
    + constructor; [cbn; lia|].
      eapply Forall_impl; [apply Hge|]. cbn. lia.
    + intros [|k] r Hr; cbn in *.
      * injection Hr as <-. cbn. split_and!; [lia|done|done].
      * destruct (Hk k r Hr) as (-> & ? & ?). split_and!; [lia|done|done].
Qed.

(** C7: for a query, candidates of the query's length and a count [topK],
    [findMostSimilar] returns the first [topK] entries of the candidates
    ordered by non-increasing cosine similarity, equal similarities in
    original index order; the result has at most [topK] entries, and all
    candidates when [topK] is at least their number. *)
Theorem findMostSimilar_ranked (q : list float) (vs : list (list float))
  (topK : Z) :
  Forall (fun v => length v = length q) vs ->
  verdictsAgree (scores q vs) = true ->
  0 <= topK ->
  exists all ranked res,
    similaritiesFrom 0 q vs = Ret all /\
    length all = length vs /\
    (forall k r, all !! k = Some r ->
       index r = k /\ vs !! k = Some (vector r) /\
       cosineSimilarity q (vector r) = Ret (similarity r)) /\
    ranked ≡ₚ all /\
    StronglySorted ranksBefore ranked /\
    findMostSimilar q vs (Some topK) = Ret res /\
    res = take (Z.to_nat topK) ranked /\
    StronglySorted ranksBefore res /\
    Z.of_nat (length res) <= topK /\
    (Z.of_nat (length vs) <= topK -> res = ranked).
Proof.
  intros Hdim Hv HtopK.
  destruct (similaritiesFrom_spec 0 q vs Hdim)
    as (all & Hall & Hlen & Hsc & Hidx & _ & Hk).
  assert (Hsorted : StronglySorted ranksBefore (sort bySimilarityDesc all)).
  { apply sort_StronglySorted; [done|]. by rewrite Hsc. }
  assert (Hres : slice0 (sort bySimilarityDesc all) topK =
                 take (Z.to_nat topK) (sort bySimilarityDesc all)).
  { unfold slice0. destruct (Z.ltb_spec topK 0); [lia|].
    destruct (Z.min_spec topK (Z.of_nat (length (sort bySimilarityDesc all))))
      as [[_ ->]|[Hle ->]]; [done|].
    rewrite Nat2Z.id, firstn_all. symmetry. apply take_ge. lia. }
  exists all, (sort bySimilarityDesc all),
    (take (Z.to_nat topK) (sort bySimilarityDesc all)).
  split_and!.
  - done.
  - done.
  - intros k r Hr. by destruct (Hk k r Hr) as (-> & ? & ?).
  - apply sort_Permutation.
  - done.
  - unfold findMostSimilar. rewrite Hall. cbn. by rewrite Hres.
  - done.
  - by apply StronglySorted_take.
  - rewrite length_take. lia.
  - intros Hall_le. apply take_ge.
    rewrite (Permutation_length (sort_Permutation bySimilarityDesc all)). lia.
Qed.

End FindMostSimilar.

Example formatWei_pt5 : EthUtils.formatWei "500000000000000000" = Some "500.000 mETH".
Proof. vm_compute. reflexivity. Qed.

Example weiToEthString_1p5 :
  EthUtils.weiToEthString "1500000000000000000" None = Some "1.5".
Proof. vm_compute. reflexivity. Qed.

(** C8 (as stated): the three scenarios with "2.0 ETH" for two ether.  The
    second fails: [toFixed(6)] gives "2.000000", and the replacement removes
    the point together with the zeros, so the formatter prints "2 ETH". *)
Lemma formatWei_scenarios_as_stated_fail :
  ~ (EthUtils.formatWei "1000000000000000" = Some "1.000 mETH" /\
     EthUtils.formatWei "2000000000000000000" = Some "2.0 ETH" /\
     EthUtils.formatWei "500" = Some "500 wei").
Proof. intros (_ & H & _). vm_compute in H. discriminate. Qed.

(** C8 (amended): [formatWei] maps "1000000000000000" to "1.000 mETH",
    "2000000000000000000" to "2 ETH" and "500" to "500 wei". *)
Theorem formatWei_scenarios :
  EthUtils.formatWei "1000000000000000" = Some "1.000 mETH" /\
  EthUtils.formatWei "2000000000000000000" = Some "2 ETH" /\
  EthUtils.formatWei "500" = Some "500 wei".
Proof. repeat split; vm_compute; reflexivity. Qed.

(** ** The execution engine *)

Section Executor.
Import ToolExecutor Schedule.
Context (rt : Runtime) (env : Env).

(** *** Request headers *)

Lemma prepareRequest_headers tool parameters :
  RequestConfig.headers (prepareRequest rt tool parameters) =
  default ∅ (ApiConfig.headers (ApiTool.apiConfig tool)) ∪ contentTypeJson.
Proof.
  unfold prepareRequest.
  by destruct (String.eqb _ "GET").
Qed.

(** *** Validation *)

(** A constraint object without [enum] makes [validateConstraints] throw:
    the TypeError of reading [length] of [undefined], unless the pattern
    was rejected by [RegExp] before. *)
Lemma validateConstraints_no_enum paramName value validation :
  Validation.enum validation = None ->
  exists e, validateConstraints rt paramName value validation = Throw e.
Proof.
  intros Henum. unfold validateConstraints. rewrite Henum.
  destruct (Validation.pattern validation) as [[|c p]|], value;
    cbn; eauto.
  destruct (regExpTest rt (String c p) s) as [ok|e]; cbn; eauto.
Qed.

Lemma validateEach_throws params parameters errors p validation value :
  p ∈ params ->
  Param.validation p = Some validation ->
  Validation.enum validation = None ->
  parameters !! Param.name p = Some value ->
  isNullish value = false ->
  exists e, validateEach rt params parameters errors = Throw e.
Proof.
  intros Hin Hval Henum Hlook Hnn. revert errors.
  induction params as [|q params IH]; intros errors.
  { by apply not_elem_of_nil in Hin. }
  apply elem_of_cons in Hin as [<-|Hin]; cbn.
  - rewrite Hlook. cbn. rewrite Hnn, andb_false_r. cbn. rewrite Hval.
    destruct (validateConstraints_no_enum (Param.name p) value validation
                Henum) as [e ->].
    cbn. eauto.
  - specialize (IH Hin).
    destruct (Param.required q && isNullish _); [apply IH|].
    destruct (negb (isNullish _)); [|apply IH].
    destruct (Param.validation q) as [v|]; [|apply IH].
    destruct (validateConstraints rt (Param.name q) _ v) as [es|e]; cbn;
      [apply IH|eauto].
Qed.

(** *** The retry loop *)

Lemma attemptOnce_world req n w :
  attemptOnce env req n w =
  (fst (attemptResult env req n),
   {| clock := clock w + snd (attemptResult env req n);
      ledger := ledger w;
      events := events w ++ [Fetched n req] |}).
Proof. unfold attemptOnce. by destruct (attemptResult env req n). Qed.

Lemma retryLoop_ledger req m left attempt lastError w :
  ledger (snd (retryLoop env req m left attempt lastError w)) = ledger w.
Proof.
  revert attempt lastError w.
  induction left as [|left IH]; intros attempt lastError w; cbn; [done|].
  rewrite attemptOnce_world.
  destruct (fst (attemptResult env req attempt)); cbn; [done|].
  rewrite IH. by destruct (attempt <? m).
Qed.

(** The loop when every attempt it makes fails. *)
Lemma retryLoop_failing req m left attempt lastError w :
  (forall n, attempt <= n < attempt + Z.of_nat left ->
     returns (fst (attemptResult env req n)) = false) ->
  exists e w',
    retryLoop env req m left attempt lastError w = (Throw e, w') /\
    events w' = events w ++
      (n ← seqZ attempt (Z.of_nat left);
       if n <? m then [Fetched n req; Slept (2 ^ n * 1000)]
       else [Fetched n req]) /\
    match left with
    | O => e = lastError
    | S _ =>
      fst (attemptResult env req (attempt + Z.of_nat left - 1)) = Throw e
    end.
Proof.
  revert attempt lastError w.
  induction left as [|left IH]; intros attempt lastError w Hfail.
  { exists lastError, w. cbn. by rewrite app_nil_r. }
  cbn [retryLoop]. rewrite attemptOnce_world.
  pose proof (Hfail attempt ltac:(lia)) as Hnow.
  destruct (fst (attemptResult env req attempt)) as [r|error] eqn:Hattempt;
    [done|].
  edestruct (IH (attempt + 1) error) as (e & w' & -> & Hevents & Hlast).
  { intros n Hn. apply Hfail. lia. }
  exists e, w'. split; [done|]. split.
  - rewrite Hevents, (seqZ_cons attempt (Z.of_nat (S left))) by lia. cbn.
    replace (Z.pred (Z.of_nat (S left))) with (Z.of_nat left) by lia.
    replace (Z.succ attempt) with (attempt + 1) by lia.
    destruct (attempt <? m); cbn; by rewrite <- !app_assoc.
  - destruct left as [|left].
    + subst e. replace (attempt + Z.of_nat 1 - 1) with attempt by lia. done.
    + rewrite <- Hlast. f_equal. f_equal. lia.
Qed.

Lemma executeWithRetries_failing req m w :
  1 <= m ->
  (forall n, 1 <= n <= m -> returns (fst (attemptResult env req n)) = false) ->
  exists e w',
    executeWithRetries env req m w = (Throw e, w') /\
    ledger w' = ledger w /\
    events w' = events w ++ failing req m /\
    fst (attemptResult env req m) = Throw e.
Proof.
  intros Hm Hfail. unfold executeWithRetries.
  destruct (retryLoop_failing req m (Z.to_nat m) 1 ThrownUndefined w)
    as (e & w' & Hloop & Hevents & Hlast).
  { intros n Hn. apply Hfail. lia. }
  exists e, w'. split; [done|]. split.
  { pose proof (retryLoop_ledger req m (Z.to_nat m) 1 ThrownUndefined w) as H.
    by rewrite Hloop in H. }
  split.
  - rewrite Hevents. unfold failing. by rewrite Z2Nat.id by lia.
  - destruct (Z.to_nat m) as [|k] eqn:Hk; [lia|].
    rewrite <- Hlast. f_equal. f_equal. lia.
Qed.

(** *** The schedule of a failing execution *)

Lemma failing_attempts_from req m a k :
  length (List.filter isFetched
    (n ← seqZ a (Z.of_nat k);
     if n <? m then [Fetched n req; Slept (2 ^ n * 1000)]
     else [Fetched n req])) = k.
Proof.
  revert a. induction k as [|k IH]; intros a; [done|].
  rewrite seqZ_cons by lia.
  replace (Z.pred (Z.of_nat (S k))) with (Z.of_nat k) by lia.
  rewrite bind_cons, List.filter_app, length_app, IH.
  by destruct (a <? m).
Qed.

(** [m] attempts are made. *)
Lemma failing_attempts req m :
  0 <= m -> length (List.filter isFetched (failing req m)) = Z.to_nat m.
Proof.
  intros Hm. unfold failing. rewrite <- (Z2Nat.id m) at 1 by done.
  apply failing_attempts_from.
Qed.

(** Attempt [n >= 2] comes right after a pause of [2^(n-1)] seconds, which
    follows attempt [n - 1]. *)
Lemma failing_delay_before req m n :
  2 <= n <= m ->
  exists before after,
    failing req m =
    before ++ [Fetched (n - 1) req; Slept (2 ^ (n - 1) * 1000);
               Fetched n req] ++ after.
Proof.
  intros Hn. unfold failing.
  assert (Hsplit : seqZ 1 m =
            seqZ 1 (n - 2) ++ [n - 1; n] ++ seqZ (n + 1) (m - n)).
  { replace m with ((n - 2) + (2 + (m - n))) at 1 by lia.
    rewrite seqZ_app by lia. f_equal.
    rewrite (seqZ_app _ 2) by lia. f_equal.
    - replace (1 + (n - 2)) with (n - 1) by lia.
      rewrite seqZ_cons by lia. cbn. rewrite seqZ_cons by lia. cbn.
      do 2 f_equal. lia.
    - f_equal. lia. }
  rewrite Hsplit, !bind_app, bind_cons, bind_singleton.
  destruct (Z.ltb_spec (n - 1) m); [|lia].
  destruct (n <? m); eexists _, _; f_equal; cbn; reflexivity.
Qed.

(** *** [executeTool] *)

(** Validation errors end the call at the early [return]: the world is
    left as it was, and nothing is written to the usage collection. *)
Lemma executeTool_invalid tool parameters userId sessionId w errors :
  validateParameters rt tool parameters = Ret (false, errors) ->
  executeTool rt env tool parameters userId sessionId w =
  (failure tool ("Parameter validation failed: "
                 +:+ String.concat ", " errors) 0, w).
Proof.
  intros Hv. unfold executeTool, tryExecute. rewrite Hv. cbn.
  unfold failure. by rewrite Z.sub_diag.
Qed.

(** A throw during validation ends in the [catch] block. *)
Lemma executeTool_validation_throws tool parameters userId sessionId w e :
  validateParameters rt tool parameters = Throw e ->
  executeTool rt env tool parameters userId sessionId w =
  (failure tool (errorMessageOf e) 0,
   logToolUsage env (ApiTool.toolId tool) userId sessionId parameters
     (failedResponse (errorMessageOf e) 0)
     (Pricing.costInWei (ApiTool.pricing tool)) w).
Proof.
  intros Hv. unfold executeTool, tryExecute. rewrite Hv. cbn.
  unfold failure, failedResponse. by rewrite Z.sub_diag.
Qed.

Lemma logToolUsage_events toolId userId sessionId parameters response cost w :
  events (logToolUsage env toolId userId sessionId parameters response cost w)
  = events w.
Proof. unfold logToolUsage. by destruct (saveUsage env _). Qed.

Lemma logToolUsage_ledger toolId userId sessionId parameters response cost w :
  ledger (logToolUsage env toolId userId sessionId parameters response cost w)
  = ledger w ++
    (if saveUsage env (usageRecord toolId userId sessionId parameters
                         response cost (clock w))
     then [usageRecord toolId userId sessionId parameters response cost
             (clock w)]
     else []).
Proof.
  unfold logToolUsage. cbn. destruct (saveUsage env _); cbn; [done|].
  by rewrite app_nil_r.
Qed.

(** Once validation has passed, the call writes one usage record, whatever
    the number of attempts, provided the store takes it. *)
Lemma executeTool_dispatched_logs_once tool parameters userId sessionId w
  errors :
  validateParameters rt tool parameters = Ret (true, errors) ->
  (forall usage, saveUsage env usage = true) ->
  exists usage,
    let '(result, w') :=
      executeTool rt env tool parameters userId sessionId w in
    ledger w' = ledger w ++ [usage] /\
    ToolUsage.paid (ToolUsage.billing usage) = false /\
    ToolUsage.success (ToolUsage.response usage) = Result.success result.
Proof.
  intros Hv Hsave. unfold executeTool, tryExecute. rewrite Hv. cbn.
  unfold executeWithRetries.
  pose proof (retryLoop_ledger (prepareRequest rt tool parameters)
    (orDefault (ApiConfig.retries (ApiTool.apiConfig tool)) 3)
    (Z.to_nat (orDefault (ApiConfig.retries (ApiTool.apiConfig tool)) 3))
    1 ThrownUndefined w) as Hledger.
  destruct (retryLoop _ _ _ _ _ _ _) as [[[data status]|e] w'];
    cbn -[logToolUsage] in *;
    eexists; rewrite logToolUsage_ledger, Hsave, Hledger; cbn; done.
Qed.

End Executor.

Section ExecutorClaims.
Import ToolExecutor Schedule.

(** C2 (as stated): a tool that declares its own [Content-Type] gets it
    replaced by [application/json].  It does not: the declared value is the
    one sent. *)
Lemma prepareRequest_content_type_overridden :
  RequestConfig.headers
    (prepareRequest Samples.runtime
       (Samples.tool (Some {[ "Content-Type" := "text/plain" ]}) None [])
       ∅) !! "Content-Type" = Some "text/plain".
Proof. rewrite prepareRequest_headers. reflexivity. Qed.

(** C2 (amended): the request carries [Content-Type: application/json]
    unless [apiConfig.headers] has a [Content-Type] entry of its own, which
    is then the one sent; every other header is the tool's. *)
Theorem prepareRequest_content_type (rt : Runtime)
  (tool : ApiTool.t) (parameters : gmap string JsVal) :
  let declared := default ∅ (ApiConfig.headers (ApiTool.apiConfig tool)) in
  let sent := RequestConfig.headers (prepareRequest rt tool parameters) in
  sent !! "Content-Type" =
    Some (default "application/json" (declared !! "Content-Type")) /\
  (forall k, k <> "Content-Type" -> sent !! k = declared !! k).
Proof.
  cbn. rewrite prepareRequest_headers. unfold contentTypeJson.
  split.
  - rewrite lookup_union.
    destruct (default ∅ _ !! "Content-Type") as [v|]; cbn;
      by rewrite lookup_singleton_eq.
  - intros k Hk. rewrite lookup_union, lookup_singleton_ne by done.
    by destruct (default ∅ _ !! k).
Qed.

(** C1, at the failing input: a call that leaves out the required
    parameter [city] returns the validation failure from the early
    [return] and adds nothing to the usage collection, although the store
    would take the record. *)
Theorem executeTool_missing_required_logs_nothing :
  let tool := Samples.tool None None [Samples.requiredCity] in
  let '(result, w') :=
    executeTool Samples.runtime Samples.alwaysFailing tool ∅
      "caller" "session" Samples.start in
  Result.success result = false /\
  Result.error result =
    Some "Parameter validation failed: Required parameter 'city' is missing" /\
  events w' = [] /\
  ledger w' = [].
Proof. cbn. by rewrite executeTool_invalid with (errors :=
  ["Required parameter 'city' is missing"]). Qed.

(** C9: when some declared parameter has a constraint object without
    [enum] and the call supplies a value for it that is neither null nor
    undefined, constraint checking throws, and [executeTool] ends as a
    failure carrying the thrown message without any call to [fetch]. *)
Theorem executeTool_enumless_constraints_fail (rt : Runtime) (env : Env)
  (tool : ApiTool.t) (parameters : gmap string JsVal)
  (userId sessionId : string) (w : World)
  (p : Param.t) (validation : Validation.t) (value : JsVal) :
  p ∈ ApiTool.parameters tool ->
  Param.validation p = Some validation ->
  Validation.enum validation = None ->
  parameters !! Param.name p = Some value ->
  isNullish value = false ->
  (exists e, validateConstraints rt (Param.name p) value validation
             = Throw e) /\
  exists e,
    validateParameters rt tool parameters = Throw e /\
    let '(result, w') :=
      executeTool rt env tool parameters userId sessionId w in
    result = failure tool (errorMessageOf e) 0 /\
    Result.success result = false /\
    events w' = events w.
Proof.
  intros Hin Hval Henum Hlook Hnn.
  split; [by apply validateConstraints_no_enum|].
  destruct (validateEach_throws rt (ApiTool.parameters tool) parameters []
              p validation value Hin Hval Henum Hlook Hnn) as [e He].
  exists e. assert (Hv : validateParameters rt tool parameters = Throw e).
  { unfold validateParameters. by rewrite He. }
  split; [done|].
  rewrite (executeTool_validation_throws rt env _ _ _ _ _ e Hv).
  by rewrite logToolUsage_events.
Qed.

Lemma executeTool_enumless_constraints_fail_witness :
  let tool := Samples.tool None None [Samples.boundedCount] in
  let parameters : gmap string JsVal := {[ "count" := JNum 5 ]} in
  (exists e, validateConstraints Samples.runtime "count" (JNum 5)
     {| Validation.min := Some 0%float; Validation.max := None;
        Validation.pattern := None; Validation.enum := None |} = Throw e) /\
  exists e,
    validateParameters Samples.runtime tool parameters = Throw e /\
    let '(result, w') :=
      executeTool Samples.runtime Samples.alwaysFailing tool parameters
        "caller" "session" Samples.start in
    result = failure tool (errorMessageOf e) 0 /\
    Result.success result = false /\
    events w' = events Samples.start.
Proof.
  cbn zeta.
  apply (executeTool_enumless_constraints_fail Samples.runtime
           Samples.alwaysFailing
           (Samples.tool None None [Samples.boundedCount])
           {[ "count" := JNum 5 ]} "caller" "session" Samples.start
           Samples.boundedCount
           {| Validation.min := Some 0%float; Validation.max := None;
              Validation.pattern := None; Validation.enum := None |}
           (JNum 5)).
  - cbn. apply list_elem_of_here.
  - reflexivity.
  - reflexivity.
  - reflexivity.
  - reflexivity.
Defined.

(** C4 (as stated): a tool with [retries: 0] whose endpoint always
    answers HTTP 500 would see no attempt at all.  It sees three: [0 || 3]
    is 3. *)
Lemma executeTool_zero_retries_makes_three_attempts :
  let tool := Samples.tool None (Some 0) [] in
  let w' := snd (executeTool Samples.runtime Samples.alwaysFailing tool ∅
                   "caller" "session" Samples.start) in
  ApiConfig.retries (ApiTool.apiConfig tool) = Some 0 /\
  length (List.filter isFetched (events w')) = 3%nat /\
  events w' =
    let request := prepareRequest Samples.runtime tool ∅ in
    [Fetched 1 request; Slept 2000; Fetched 2 request; Slept 4000;
     Fetched 3 request].
Proof. cbn. split_and!; reflexivity. Qed.

(** C4 (amended): let [m] be [apiConfig.retries], or 3 when that is absent
    or 0, and let [m >= 1].  When validation passes and each of the attempts
    1..m fails, [executeTool] makes exactly [m] attempts, pauses
    [2^(n-1)] seconds right before each attempt [n >= 2], and returns a
    failure whose error is the message of the last attempt's error; one
    usage record with that error is handed to the store. *)
Theorem executeTool_exhausts_retries (rt : Runtime) (env : Env)
  (tool : ApiTool.t) (parameters : gmap string JsVal)
  (userId sessionId : string) (w : World) (errors : list string) :
  let request := prepareRequest rt tool parameters in
  let retries := ApiConfig.retries (ApiTool.apiConfig tool) in
  let m := match retries with
           | Some r => if r =? 0 then 3 else r
           | None => 3
           end in
  validateParameters rt tool parameters = Ret (true, errors) ->
  1 <= m ->
  (forall n, 1 <= n <= m ->
     returns (fst (attemptResult env request n)) = false) ->
  exists lastError,
    fst (attemptResult env request m) = Throw lastError /\
    let '(result, w') :=
      executeTool rt env tool parameters userId sessionId w in
    let elapsed := clock w' - clock w in
    let usage :=
      usageRecord (ApiTool.toolId tool) userId sessionId parameters
        (failedResponse (errorMessageOf lastError) elapsed)
        (Pricing.costInWei (ApiTool.pricing tool)) (clock w') in
    events w' = events w ++ failing request m /\
    length (List.filter isFetched (failing request m)) = Z.to_nat m /\
    (forall n, 2 <= n <= m -> exists before after,
       failing request m =
       before ++ [Fetched (n - 1) request; Slept (2 ^ (n - 1) * 1000);
                  Fetched n request] ++ after) /\
    result = failure tool (errorMessageOf lastError) elapsed /\
    ledger w' = ledger w ++ (if saveUsage env usage then [usage] else []).
Proof.
  intros request retries m Hv Hm Hfail.
  destruct (executeWithRetries_failing env request m w Hm Hfail)
    as (e & w1 & Hrun & Hledger & Hevents & Hlast).
  exists e. split; [done|].
  unfold executeTool, tryExecute. rewrite Hv. cbn -[logToolUsage].
  fold request. fold retries.
  change (orDefault retries 3) with m. rewrite Hrun.
  cbn -[logToolUsage].
  rewrite logToolUsage_events, logToolUsage_ledger, Hledger.
  assert (clock (logToolUsage env (ApiTool.toolId tool) userId sessionId
            parameters
            {| ToolUsage.success := false; ToolUsage.data := None;
               ToolUsage.error := Some (errorMessageOf e);
               ToolUsage.statusCode := None;
               ToolUsage.executionTime := clock w1 - clock w |}
            (Pricing.costInWei (ApiTool.pricing tool)) w1) = clock w1)
    as ->.
  { unfold logToolUsage. by destruct (saveUsage env _). }
  split_and!; try done.
  - apply failing_attempts. lia.
  - intros n Hn. by apply failing_delay_before.
Qed.

Lemma executeTool_exhausts_retries_witness :
  let tool := Samples.tool None (Some 3) [] in
  let request := prepareRequest Samples.runtime tool ∅ in
  exists lastError,
    fst (attemptResult Samples.alwaysFailing request 3) = Throw lastError /\
    let '(result, w') :=
      executeTool Samples.runtime Samples.alwaysFailing tool ∅
        "caller" "session" Samples.start in
    let elapsed := clock w' - clock Samples.start in
    let usage :=
      usageRecord (ApiTool.toolId tool) "caller" "session" ∅
        (failedResponse (errorMessageOf lastError) elapsed)
        (Pricing.costInWei (ApiTool.pricing tool)) (clock w') in
    events w' = events Samples.start ++ failing request 3 /\
    length (List.filter isFetched (failing request 3)) = Z.to_nat 3 /\
    (forall n, 2 <= n <= 3 -> exists before after,
       failing request 3 =
       before ++ [Fetched (n - 1) request; Slept (2 ^ (n - 1) * 1000);
                  Fetched n request] ++ after) /\
    result = failure tool (errorMessageOf lastError) elapsed /\
    ledger w' = ledger Samples.start ++
                (if saveUsage Samples.alwaysFailing usage then [usage]
                 else []).
Proof.
  cbn zeta.
  apply (executeTool_exhausts_retries Samples.runtime Samples.alwaysFailing
           (Samples.tool None (Some 3) []) ∅ "caller" "session"
           Samples.start []).
  - reflexivity.
  - cbn. lia.
  - intros n _. reflexivity.
Defined.

End ExecutorClaims.

(** ** The discovery service *)

Section Discovery.
Import ToolDiscovery.
Context (env : Env).

Lemma updateFirst_None matches update store :
  updateFirst matches update store = None ->
  Forall (fun tool => matches tool = false) store.
Proof.
  induction store as [|t store IH]; cbn; [constructor|].
  destruct (matches t) eqn:Ht; [done|].
  destruct (updateFirst matches update store) as [[[old new] rest]|];
    [done|].
  intros _. constructor; auto.
Qed.

(** The first match is replaced in place; nothing else moves. *)
Lemma updateFirst_Some matches update store old new store' :
  updateFirst matches update store = Some (old, new, store') ->
  exists before after,
    store = before ++ old :: after /\
    store' = before ++ new :: after /\
    Forall (fun tool => matches tool = false) before /\
    matches old = true /\ new = update old.
Proof.
  revert store'. induction store as [|t store IH]; intros store'; cbn;
    [done|].
  destruct (matches t) eqn:Ht.
  - intros [= <- <- <-]. exists [], store. by split_and!.
  - destruct (updateFirst matches update store) as [[[o n] rest]|] eqn:Hrec;
      [|done].
    cbn. intros [= <- <- <-].
    destruct (IH rest eq_refl) as (before & after & -> & -> & Hb & Ho & Hn).
    exists (t :: before), after. split_and!; try done. by constructor.
Qed.

Lemma find_first {A} (f : A -> bool) before x after :
  Forall (fun y => f y = false) before -> f x = true ->
  List.find f (before ++ x :: after) = Some x.
Proof.
  induction 1 as [|y before Hy _ IH]; intros Hx; cbn.
  - by rewrite Hx.
  - rewrite Hy. by apply IH.
Qed.

Lemma find_none_iff {A} (f : A -> bool) l :
  Forall (fun y => f y = false) l -> List.find f l = None.
Proof. induction 1 as [|y l Hy _ IH]; cbn; [done|]. by rewrite Hy. Qed.

Lemma NoDup_fmap_eq {A B} (f : A -> B) (l : list A) x y :
  NoDup (f <$> l) -> x ∈ l -> y ∈ l -> f x = f y -> x = y.
Proof.
  induction l as [|z l IH]; cbn; intros Hnd Hx Hy Hf.
  { by apply not_elem_of_nil in Hx. }
  apply NoDup_cons in Hnd as [Hz Hnd].
  apply elem_of_cons in Hx as [->|Hx], Hy as [->|Hy]; auto.
  - destruct Hz. rewrite Hf. by apply list_elem_of_fmap_2.
  - destruct Hz. rewrite <- Hf. by apply list_elem_of_fmap_2.
Qed.

Lemma getToolById_Some store toolId tool :
  getToolById store toolId = Some tool ->
  Metadata.isActive (ApiTool.metadata tool) = true /\
  ApiTool.toolId tool = toolId /\ tool ∈ store.
Proof.
  unfold getToolById. intros H. apply List.find_some in H as [Hin Hp].
  apply andb_true_iff in Hp as [Hid Hact]. unfold byToolId in Hid.
  apply String.eqb_eq in Hid. apply Bool.eqb_prop in Hact.
  by rewrite list_elem_of_In.
Qed.

Lemma getToolById_inactive store tool :
  NoDup (ApiTool.toolId <$> store) ->
  tool ∈ store ->
  Metadata.isActive (ApiTool.metadata tool) = false ->
  getToolById store (ApiTool.toolId tool) = None.
Proof.
  intros Hnd Hin Hoff.
  destruct (getToolById store (ApiTool.toolId tool)) as [t|] eqn:Hget;
    [|done].
  apply getToolById_Some in Hget as (Hact & Hid & Ht).
  assert (t = tool) as -> by by eapply NoDup_fmap_eq.
  congruence.
Qed.

Lemma deactivateTool_store store toolId :
  NoDup (ApiTool.toolId <$> store) ->
  getToolById (snd (deactivateTool env store toolId)) toolId = None /\
  length (snd (deactivateTool env store toolId)) = length store /\
  (forall tool, tool ∈ store -> ApiTool.toolId tool = toolId ->
     deactivate env tool ∈ snd (deactivateTool env store toolId)).
Proof.
  intros Hnd. unfold deactivateTool.
  destruct (updateFirst (byToolId toolId) (deactivate env) store)
    as [[[old new] store']|] eqn:Hup; cbn.
  - apply updateFirst_Some in Hup
      as (before & after & -> & -> & Hb & Ho & ->).
    unfold byToolId in Ho. apply String.eqb_eq in Ho.
    assert (Hids : ApiTool.toolId <$> before ++ deactivate env old :: after
                   = ApiTool.toolId <$> before ++ old :: after).
    { by rewrite !fmap_app. }
    split_and!.
    + rewrite <- Ho.
      change (ApiTool.toolId old)
        with (ApiTool.toolId (deactivate env old)).
      apply getToolById_inactive; [by rewrite Hids| |done].
      apply elem_of_app. right. by left.
    + by rewrite !length_app.
    + intros tool Hin Hid.
      assert (tool = old) as ->.
      { eapply NoDup_fmap_eq; [exact Hnd|done| |congruence].
        apply elem_of_app. right. by left. }
      apply elem_of_app. right. by left.
  - apply updateFirst_None in Hup. split_and!; [|done|].
    + unfold getToolById. apply find_none_iff.
      eapply Forall_impl; [exact Hup|]. cbn. by intros t ->.
    + intros tool Hin Hid. rewrite Forall_forall in Hup.
      specialize (Hup tool Hin). unfold byToolId in Hup.
      apply String.eqb_neq in Hup. done.
Qed.

Lemma updateFirst_find matches update store old :
  List.find matches store = Some old ->
  exists store',
    updateFirst matches update store = Some (old, update old, store') /\
    length store' = length store /\ update old ∈ store'.
Proof.
  induction store as [|t store IH]; cbn; [done|].
  destruct (matches t) eqn:Ht.
  - intros [= ->]. eexists. split_and!; [done|done|by left].
  - intros Hfind. destruct (IH Hfind) as (store' & -> & Hlen & Hin).
    cbn. eexists. split_and!; [done|by cbn; rewrite Hlen|by right].
Qed.

End Discovery.

Section DiscoveryClaims.
Import ToolDiscovery.

(** C10: in a collection whose tool ids are unique, [getToolById] returns
    only tools whose [isActive] flag is true; for a stored tool whose flag
    is false it returns nothing; and after [deactivateTool] the tool is
    still a document of the collection, with the flag off, while looking
    it up by id returns nothing. *)
Theorem getToolById_hides_inactive (env : Env) (store : list ApiTool.t) :
  NoDup (ApiTool.toolId <$> store) ->
  (forall toolId tool, getToolById store toolId = Some tool ->
     Metadata.isActive (ApiTool.metadata tool) = true /\
     ApiTool.toolId tool = toolId /\ tool ∈ store) /\
  (forall tool, tool ∈ store ->
     Metadata.isActive (ApiTool.metadata tool) = false ->
     getToolById store (ApiTool.toolId tool) = None) /\
  (forall toolId,
     let store' := snd (deactivateTool env store toolId) in
     getToolById store' toolId = None /\
     length store' = length store /\
     (forall tool, tool ∈ store -> ApiTool.toolId tool = toolId ->
        deactivate env tool ∈ store' /\
        Metadata.isActive (ApiTool.metadata (deactivate env tool)) = false)).
Proof.
  intros Hnd. split_and!.
  - intros toolId tool. apply getToolById_Some.
  - intros tool. by apply getToolById_inactive.
  - intros toolId.
    destruct (deactivateTool_store env store toolId Hnd) as (H1 & H2 & H3).
    split_and!; [done|done|]. intros tool Hin Hid. split; [by apply H3|done].
Qed.

Lemma getToolById_hides_inactive_witness :
  let store := [Samples.stored "tool_9" "9" false [1%float];
                Samples.stored "tool_10" "10" true [1%float]] in
  (forall toolId tool, getToolById store toolId = Some tool ->
     Metadata.isActive (ApiTool.metadata tool) = true /\
     ApiTool.toolId tool = toolId /\ tool ∈ store) /\
  (forall tool, tool ∈ store ->
     Metadata.isActive (ApiTool.metadata tool) = false ->
     getToolById store (ApiTool.toolId tool) = None) /\
  (forall toolId,
     let store' := snd (deactivateTool Samples.collaborators store toolId) in
     getToolById store' toolId = None /\
     length store' = length store /\
     (forall tool, tool ∈ store -> ApiTool.toolId tool = toolId ->
        deactivate Samples.collaborators tool ∈ store' /\
        Metadata.isActive
          (ApiTool.metadata (deactivate Samples.collaborators tool))
        = false)).
Proof.
  cbn zeta.
  apply (getToolById_hides_inactive Samples.collaborators
           [Samples.stored "tool_9" "9" false [1%float];
            Samples.stored "tool_10" "10" true [1%float]]).
  apply (bool_decide_unpack _). vm_compute. exact I.
Defined.

(** C5: when the embedding service fails, [registerApiTool] fails with the
    service's error and the collection is left as it was.  Whenever the
    collection changes, exactly one tool has been added, and it carries the
    vector that the service returned for the registration text, which is
    not empty as long as the service returns no empty vector. *)
Theorem registerApiTool_needs_embedding (env : Env)
  (store : list ApiTool.t) (userId : string) (toolData : Partial.t) :
  (forall text v, embedQuery env text = Ret v -> v <> []) ->
  (forall e, embedQuery env (registrationText toolData) = Throw e ->
     registerApiTool env store userId toolData = (Throw e, store)) /\
  (let '(outcome, store') := registerApiTool env store userId toolData in
   (returns outcome = false /\ store' = store) \/
   exists tool v,
     outcome = Ret tool /\ store' = store ++ [tool] /\
     embedQuery env (registrationText toolData) = Ret v /\
     ApiTool.embedding tool = Some v /\ v <> []).
Proof.
  intros Hne. unfold registerApiTool. split.
  - by intros e ->.
  - destruct (embedQuery env (registrationText toolData)) as [v|e] eqn:Hv;
      [|by left].
    destruct (construct _ _) as [tool|] eqn:Htool; [|by left].
    destruct (saveAccepted env store tool); [|by left].
    right. exists tool, v. split_and!; try done; [|by eapply Hne].
    unfold construct in Htool. cbn in Htool.
    repeat match type of Htool with
           | context [?o ≫= _] =>
             let x := fresh in destruct o as [x|]; cbn in Htool; [|done]
           end.
    by injection Htool as <-.
Qed.

Lemma registerApiTool_needs_embedding_witness :
  (forall e,
     embedQuery Samples.collaborators (registrationText Samples.newTool)
     = Throw e ->
     registerApiTool Samples.collaborators [] "alice" Samples.newTool
     = (Throw e, [])) /\
  (let '(outcome, store') :=
     registerApiTool Samples.collaborators [] "alice" Samples.newTool in
   (returns outcome = false /\ store' = []) \/
   exists tool v,
     outcome = Ret tool /\ store' = [] ++ [tool] /\
     embedQuery Samples.collaborators (registrationText Samples.newTool)
     = Ret v /\
     ApiTool.embedding tool = Some v /\ v <> []).
Proof.
  apply (registerApiTool_needs_embedding Samples.collaborators [] "alice"
           Samples.newTool).
  intros text v. cbn. intros [= <-]. discriminate.
Defined.

(** C6 (as stated): a patch that names [name] has the embedding
    recomputed, and any other patch leaves the stored embedding as it was.
    Neither holds: the patch [{ name: "" }] renames the tool and keeps the
    old vector although the embedding service would answer, and the patch
    [{ embedding: [5] }] names none of the three fields and replaces the
    stored vector. *)
Lemma updateTool_embedding_counterexample :
  let old := Samples.stored "tool_9" "9" true [0%float; 1%float] in
  (exists new,
     updateTool Samples.collaborators [old] "tool_9" Samples.emptyName
     = (Ret (Some new), [new]) /\
     ApiTool.name new = "" /\
     ApiTool.embedding new = Some [0%float; 1%float] /\
     embedQuery Samples.collaborators
       (updateSearchText Samples.emptyName) = Ret [1%float; 0%float]) /\
  (exists new,
     updateTool Samples.collaborators [old] "tool_9" Samples.ownEmbedding
     = (Ret (Some new), [new]) /\
     ApiTool.embedding old = Some [0%float; 1%float] /\
     ApiTool.embedding new = Some [5%float]).
Proof. cbn. split; eexists; split_and!; reflexivity. Qed.

(** C6 (amended): for an existing tool, when the patch carries a non-empty
    [name], [description] or [category], [updateTool] obtains a new
    embedding first (and writes nothing if that fails) and stores it;
    otherwise the stored embedding becomes the patch's own [embedding] if
    it has one and stays as it was if it has none, as for a patch of
    [pricing] alone.  The only other outcome is a write that the store
    refuses, which changes nothing. *)
Theorem updateTool_embedding (env : Env) (store : list ApiTool.t)
  (toolId : string) (updates : Partial.t) (old : ApiTool.t) :
  List.find (byToolId toolId) store = Some old ->
  let carries :=
    truthy (Partial.name updates) || truthy (Partial.description updates)
    || truthy (Partial.category updates) in
  let text := updateSearchText updates in
  match updateTool env store toolId updates with
  | (Ret (Some new), store') =>
    new ∈ store' /\ length store' = length store /\
    if carries then
      exists v, embedQuery env text = Ret v /\ ApiTool.embedding new = Some v
    else
      ApiTool.embedding new =
      match Partial.embedding updates with
      | Some e => Some e
      | None => ApiTool.embedding old
      end
  | (Ret None, _) => False
  | (Throw e, store') =>
    store' = store /\
    ((carries = true /\ embedQuery env text = Throw e) \/ e = storeError)
  end.
Proof.
  intros Hfind carries text. unfold updateTool. fold carries. fold text.
  destruct carries eqn:Hc.
  - destruct (embedQuery env text) as [v|e] eqn:Hv; cbn; [|by auto].
    destruct (updateFirst_find (byToolId toolId)
                (applyUpdates env (withEmbedding updates v)) store old Hfind)
      as (store' & -> & Hlen & Hin).
    destruct (updateAccepted env store' _); [|by auto].
    split_and!; [done|done|]. by exists v.
  - destruct (updateFirst_find (byToolId toolId)
                (applyUpdates env updates) store old Hfind)
      as (store' & -> & Hlen & Hin).
    destruct (updateAccepted env store' _); [|by auto].
    by split_and!.
Qed.

Lemma updateTool_embedding_witness :
  let old := Samples.stored "tool_9" "9" true [0%float; 1%float] in
  let env := Samples.collaborators in
  let updates := Samples.newPrice in
  let carries :=
    truthy (Partial.name updates) || truthy (Partial.description updates)
    || truthy (Partial.category updates) in
  let text := updateSearchText updates in
  match updateTool env [old] "tool_9" updates with
  | (Ret (Some new), store') =>
    new ∈ store' /\ length store' = length [old] /\
    if carries then
      exists v, embedQuery env text = Ret v /\ ApiTool.embedding new = Some v
    else
      ApiTool.embedding new =
      match Partial.embedding updates with
      | Some e => Some e
      | None => ApiTool.embedding old
      end
  | (Ret None, _) => False
  | (Throw e, store') =>
    store' = [old] /\
    ((carries = true /\ embedQuery env text = Throw e) \/ e = storeError)
  end.
Proof.
  cbn zeta.
  apply (updateTool_embedding Samples.collaborators
           [Samples.stored "tool_9" "9" true [0%float; 1%float]] "tool_9"
           Samples.newPrice
           (Samples.stored "tool_9" "9" true [0%float; 1%float])).
  reflexivity.
Defined.

(** C3, at the failing input: with a tool priced "9" and one priced "10"
    in the collection, a global search with [maxCost = 10] leaves out the
    tool that costs 9, and with [maxCost = 9] it returns the tool that
    costs 10; [getToolsByCategory] does the same.  The prices are compared
    as strings. *)
Theorem maxCost_filter_compares_strings :
  let nine := Samples.stored "tool_9" "9" true [1%float; 0%float] in
  let ten := Samples.stored "tool_10" "10" true [1%float; 0%float] in
  let env := Samples.collaborators in
  searchToolsGlobally env [nine; ten] "weather" (Samples.costAtMost 10) None
  = Ret [ten] /\
  searchToolsGlobally env [nine; ten] "weather" (Samples.costAtMost 9) None
  = Ret [nine; ten] /\
  getToolsByCategory env [nine; ten] "data" (Some 10) None = [ten] /\
  getToolsByCategory env [nine; ten] "data" (Some 9) None = [nine; ten].
Proof. cbn zeta. split_and!; vm_compute; reflexivity. Qed.

End DiscoveryClaims.

Section SimilarityClaims.
Import VectorUtils Ranking.

(** C7 (as stated): for every query, candidate list and [topK].  Three
    inputs on which it fails: with [topK = -1] three of four candidates are
    returned; with a candidate of another length the call throws and
    returns nothing; and a candidate whose similarity is NaN stays in front
    of one with similarity 0. *)
Lemma findMostSimilar_as_stated_fails :
  (exists res,
     findMostSimilar [1; 0]%float [[0; 1]; [1; 0]; [1; 1]; [2; 0]]%float
       (Some (-1)) = Ret res /\
     length res = 3%nat /\ ~ (Z.of_nat (length res) <= -1)) /\
  findMostSimilar [1; 0]%float [[0; 1]; [1; 0]; [1]]%float (Some 3)
  = Throw (ErrorObject "Vectors must have the same length") /\
  (exists a b,
     findMostSimilar [1e200]%float [[1e200]; [1]]%float (Some 3)
     = Ret [a; b] /\
     index a = 0%nat /\ index b = 1%nat /\
     (similarity b <=? similarity a)%float = false).
Proof.
  split_and!.
  - eexists. split_and!; [vm_compute; reflexivity|reflexivity|cbn; lia].
  - vm_compute. reflexivity.
  - eexists _, _. split_and!; [vm_compute; reflexivity|..]; reflexivity.
Qed.

Lemma findMostSimilar_ranked_witness :
  let q := [1; 0]%float in
  let vs := [[0; 1]; [1; 0]; [1; 1]; [2; 0]]%float in
  exists all ranked res,
    similaritiesFrom 0 q vs = Ret all /\
    length all = length vs /\
    (forall k r, all !! k = Some r ->
       index r = k /\ vs !! k = Some (vector r) /\
       cosineSimilarity q (vector r) = Ret (similarity r)) /\
    ranked ≡ₚ all /\
    StronglySorted ranksBefore ranked /\
    findMostSimilar q vs (Some 3) = Ret res /\
    res = take (Z.to_nat 3) ranked /\
    StronglySorted ranksBefore res /\
    Z.of_nat (length res) <= 3 /\
    (Z.of_nat (length vs) <= 3 -> res = ranked).
Proof.
  cbn zeta.
  apply (findMostSimilar_ranked [1; 0]%float
           [[0; 1]; [1; 0]; [1; 1]; [2; 0]]%float 3).
  - repeat constructor.
  - vm_compute. reflexivity.
  - lia.
Defined.

Example findMostSimilar_top3 :
  (fun r => (index r, similarity r)) <$>
    match findMostSimilar [1; 0]%float
            [[0; 1]; [1; 0]; [1; 1]; [2; 0]]%float (Some 3) with
    | Ret res => res
    | Throw _ => []
    end
  = [(1%nat, 1%float); (3%nat, 1%float);
     (2%nat, 0.70710678118654746%float)].
Proof. vm_compute. reflexivity. Qed.

End SimilarityClaims.

(** ** Arithmetic on binary64 values *)

Section FloatArithmetic.

Lemma Prim2SF_inj (x y : float) : Prim2SF x = Prim2SF y -> x = y.
Proof.
  intros H. rewrite <- (SF2Prim_Prim2SF x), <- (SF2Prim_Prim2SF y).
  by rewrite H.
Qed.

Lemma SFmul_comm x y : SFmul prec emax x y = SFmul prec emax y x.
Proof.
  destruct x as [sx|sx| |sx mx ex], y as [sy|sy| |sy my ey]; cbn;
    try reflexivity; rewrite (xorb_comm sx sy); try reflexivity.
  by rewrite (Pos.mul_comm mx my), (Z.add_comm ex ey).
Qed.

Lemma SFadd_comm x y : SFadd prec emax x y = SFadd prec emax y x.
Proof.
  destruct x as [sx|sx| |sx mx ex], y as [sy|sy| |sy my ey]; cbn;
    try reflexivity;
    try (by destruct sx, sy).
  rewrite (Z.min_comm ey ex). f_equal. apply Z.add_comm.
Qed.

Lemma float_mul_comm (x y : float) : (x * y)%float = (y * x)%float.
Proof. apply Prim2SF_inj. rewrite !mul_spec. apply SFmul_comm. Qed.

Lemma float_add_comm (x y : float) : (x + y)%float = (y + x)%float.
Proof. apply Prim2SF_inj. rewrite !add_spec. apply SFadd_comm. Qed.

(** Rounding treats the sign as a label. *)
Lemma SFabs_binary_round s s' m e :
  SFabs (binary_round prec emax s m e) = SFabs (binary_round prec emax s' m e).
Proof.
  unfold binary_round, binary_round_aux.
  destruct (shl_align _ _ _) as [mz ez].
  destruct (shr_fexp _ _ _ _ _) as [mrs e1].
  destruct (shr_fexp _ _ _ _ _) as [mrs' e2].
  destruct (shr_m mrs') as [|p|p]; cbn; [done| |done].
  by destruct (e2 <=? _).
Qed.

Lemma SFabs_binary_normalize_opp d e :
  SFabs (binary_normalize prec emax d e false)
  = SFabs (binary_normalize prec emax (- d) e false).
Proof. destruct d; cbn; [done|..]; apply SFabs_binary_round. Qed.

Lemma SFabs_sub_swap x y :
  SFabs (SFsub prec emax x y) = SFabs (SFsub prec emax y x).
Proof.
  destruct x as [sx|sx| |sx mx ex], y as [sy|sy| |sy my ey]; cbn;
    try reflexivity;
    try (by destruct sx, sy).
  rewrite (Z.min_comm ey ex), SFabs_binary_normalize_opp. f_equal. f_equal.
  lia.
Qed.

Lemma float_abs_sub_swap (x y : float) :
  abs (x - y) = abs (y - x).
Proof. apply Prim2SF_inj. rewrite !abs_spec, !sub_spec. apply SFabs_sub_swap. Qed.

Lemma SFmul_square_abs d d' :
  SFabs d = SFabs d' -> SFmul prec emax d d = SFmul prec emax d' d'.
Proof.
  destruct d as [s|s| |s m e], d' as [s'|s'| |s' m' e']; cbn;
    intros H; try discriminate; try reflexivity;
    rewrite ?xorb_nilpotent; try reflexivity.
  by injection H as -> ->.
Qed.

Lemma float_square_sub_swap (x y : float) :
  ((x - y) * (x - y))%float = ((y - x) * (y - x))%float.
Proof.
  apply Prim2SF_inj. rewrite !mul_spec. apply SFmul_square_abs.
  rewrite <- !abs_spec. f_equal. apply float_abs_sub_swap.
Qed.

Lemma SFsub_diag x :
  SFsub prec emax x x = S754_nan \/ SFsub prec emax x x = S754_zero false.
Proof.
  destruct x as [s|s| |s m e]; cbn; auto.
  - by destruct s; auto.
  - by destruct s; auto.
  - rewrite Z.sub_diag. auto.
Qed.

Lemma SFltb_nan_r x : SFltb x S754_nan = false.
Proof. by destruct x. Qed.

(** Nothing exceeds the distance of a value to itself, nor a distance
    that is NaN, unless the bound is negative. *)
Lemma float_ltb_abs_sub_diag (t x : float) :
  (t <? 0)%float = false -> (t <? abs (x - x))%float = false.
Proof.
  rewrite !ltb_spec, abs_spec, sub_spec. unfold SF64sub.
  destruct (SFsub_diag (Prim2SF x)) as [-> | ->]; cbn [SFabs].
  - intros _. apply SFltb_nan_r.
  - done.
Qed.

Lemma float_ltb_abs_sub_nan (t y : float) :
  (t <? abs (nan - y))%float = false.
Proof.
  rewrite ltb_spec, abs_spec, sub_spec. unfold SF64sub.
  change (Prim2SF nan) with S754_nan. cbn. apply SFltb_nan_r.
Qed.

End FloatArithmetic.

(** ** The vector library *)

Section VectorProperties.
Import VectorUtils.
Local Arguments cosineSimilarity : simpl never.

Lemma accumulate_swap vecA vecB d na nb :
  accumulate vecB vecA (d, nb, na) =
  (let '(d', na', nb') := accumulate vecA vecB (d, na, nb) in (d', nb', na')).
Proof.
  revert vecB d na nb.
  induction vecA as [|a vecA IH]; intros [|b vecB] d na nb; cbn; try done.
  by rewrite IH, (float_mul_comm b a).
Qed.

(** X1: cosine similarity does not depend on the order of its two
    arguments: the same number, or the same error, comes back. *)
Theorem cosineSimilarity_symmetric (vecA vecB : list float) :
  cosineSimilarity vecA vecB = cosineSimilarity vecB vecA.
Proof.
  unfold cosineSimilarity. rewrite (Nat.eqb_sym (length vecB)).
  destruct (length vecA =? length vecB)%nat eqn:Hlen; cbn; [|done].
  apply Nat.eqb_eq in Hlen. rewrite <- Hlen.
  destruct (length vecA =? 0)%nat; [done|].
  rewrite (accumulate_swap vecA vecB).
  destruct (accumulate vecA vecB _) as [[d na] nb].
  rewrite (orb_comm (sqrt nb =? 0)%float), (float_mul_comm (sqrt nb)).
  done.
Qed.

(** X2: the six functions that take two vectors fail fast: each returns a
    value exactly when the two lengths agree, and throws the same
    length-mismatch error otherwise; none of them truncates the longer
    vector. *)
Theorem length_mismatch_throws (vecA vecB : list float) :
  (length vecA = length vecB ->
   returns (cosineSimilarity vecA vecB) = true /\
   returns (dotProduct vecA vecB) = true /\
   returns (euclideanDistance vecA vecB) = true /\
   returns (manhattanDistance vecA vecB) = true /\
   returns (addVectors vecA vecB) = true /\
   returns (subtractVectors vecA vecB) = true) /\
  (length vecA <> length vecB ->
   cosineSimilarity vecA vecB = Throw lengthMismatch /\
   dotProduct vecA vecB = Throw lengthMismatch /\
   euclideanDistance vecA vecB = Throw lengthMismatch /\
   manhattanDistance vecA vecB = Throw lengthMismatch /\
   addVectors vecA vecB = Throw lengthMismatch /\
   subtractVectors vecA vecB = Throw lengthMismatch /\
   vectorsEqual vecA vecB None = false).
Proof.
  unfold cosineSimilarity, dotProduct, euclideanDistance, manhattanDistance,
    addVectors, subtractVectors, vectorsEqual.
  split; intros Hlen.
  - apply Nat.eqb_eq in Hlen. rewrite Hlen. cbn. split_and!; try done.
    destruct (length vecA =? 0)%nat; [done|].
    destruct (accumulate vecA vecB _) as [[d na] nb].
    by destruct (_ || _).
  - apply Nat.eqb_neq in Hlen. rewrite Hlen. by cbn.
Qed.

Lemma foldl_ext_zip {A} (f g : A -> float * float -> A) a l :
  (forall acc xy, f acc xy = g acc (xy.2, xy.1)) ->
  forall vecA vecB,
    l = zip vecA vecB ->
    foldl f a l = foldl g a (zip vecB vecA).
Proof.
  intros Hfg vecA. revert a l.
  induction vecA as [|x vecA IH]; intros a l [|y vecB] ->; cbn; try done.
  rewrite Hfg. cbn. by apply IH.
Qed.

(** X3: the dot product and the two distances are symmetric in their
    arguments, and so is the comparison within a tolerance. *)
Theorem products_and_distances_symmetric (vecA vecB : list float)
  (tolerance : option float) :
  dotProduct vecA vecB = dotProduct vecB vecA /\
  euclideanDistance vecA vecB = euclideanDistance vecB vecA /\
  manhattanDistance vecA vecB = manhattanDistance vecB vecA /\
  vectorsEqual vecA vecB tolerance = vectorsEqual vecB vecA tolerance.
Proof.
  unfold dotProduct, euclideanDistance, manhattanDistance, vectorsEqual.
  rewrite (Nat.eqb_sym (length vecB)).
  destruct (length vecA =? length vecB)%nat; cbn; [|done].
  split_and!.
  - f_equal. eapply foldl_ext_zip; [|done].
    intros acc [x y]. cbn. by rewrite float_mul_comm.
  - do 2 f_equal. eapply foldl_ext_zip; [|done].
    intros acc [x y]. cbn. by rewrite float_square_sub_swap.
  - f_equal. eapply foldl_ext_zip; [|done].
    intros acc [x y]. cbn. by rewrite float_abs_sub_swap.
  - revert vecB. induction vecA as [|x vecA IH]; intros [|y vecB]; cbn;
      try done.
    by rewrite IH, float_abs_sub_swap.
Qed.

(** X4: element-wise operations keep the dimension: the sum and the
    difference of two vectors of length [n] have length [n], addition is
    commutative, and scaling and normalising keep the length. *)
Theorem elementwise_dimensions (vecA vecB : list float) (scalar : float) :
  length vecA = length vecB ->
  (exists sum difference,
     addVectors vecA vecB = Ret sum /\
     subtractVectors vecA vecB = Ret difference /\
     addVectors vecB vecA = Ret sum /\
     length sum = length vecA /\ length difference = length vecA) /\
  length (scaleVector vecA scalar) = length vecA /\
  length (normalizeVector vecA) = length vecA.
Proof.
  intros Hlen. unfold addVectors, subtractVectors, scaleVector,
    normalizeVector.
  rewrite <- Hlen, !Nat.eqb_refl. cbn.
  split_and!.
  - eexists _, _. split_and!; try done.
    + f_equal. clear Hlen. revert vecB.
      induction vecA as [|x vecA IH]; intros [|y vecB]; cbn; try done.
      by rewrite IH, float_add_comm.
    + rewrite length_zip_with. lia.
    + rewrite length_zip_with. lia.
  - by rewrite length_map.
  - destruct (_ =? _)%float; [done|]. by rewrite length_map.
Qed.

Lemma elementwise_dimensions_witness :
  (exists sum difference,
     addVectors [1; 2]%float [3; 4]%float = Ret sum /\
     subtractVectors [1; 2]%float [3; 4]%float = Ret difference /\
     addVectors [3; 4]%float [1; 2]%float = Ret sum /\
     length sum = length [1; 2]%float /\
     length difference = length [1; 2]%float) /\
  length (scaleVector [1; 2]%float 2%float) = length [1; 2]%float /\
  length (normalizeVector [1; 2]%float) = length [1; 2]%float.
Proof.
  apply (elementwise_dimensions [1; 2]%float [3; 4]%float 2%float).
  reflexivity.
Defined.

Lemma addAll_spec dimensions vectors mean :
  length mean = dimensions ->
  (Forall (fun v => length v = dimensions) vectors ->
   exists result, addAll dimensions vectors mean = Ret result /\
                  length result = dimensions) /\
  (~ Forall (fun v => length v = dimensions) vectors ->
   addAll dimensions vectors mean
   = Throw (ErrorObject "All vectors must have the same dimensions")).
Proof.
  revert mean. induction vectors as [|v vectors IH]; intros mean Hmean; cbn.
  - split; [by eauto|]. intros H. destruct H. constructor.
  - destruct (length v =? dimensions)%nat eqn:Hv; cbn.
    + apply Nat.eqb_eq in Hv.
      destruct (IH (zip_with (fun m v0 => (m + v0)%float) mean v))
        as [Hok Hbad].
      { rewrite length_zip_with. lia. }
      split.
      * intros H. apply Forall_cons in H as [_ H]. by apply Hok.
      * intros H. apply Hbad. intros H'. apply H. by constructor.
    + apply Nat.eqb_neq in Hv. split; [|done].
      intros H. by apply Forall_cons in H as [? _].
Qed.

(** X5: [meanVector] throws on an empty array, throws when some vector has
    another dimension than the first, and otherwise returns a vector of
    the dimension of the first. *)
Theorem meanVector_defined (vectors : list (list float)) :
  match vectors with
  | [] =>
    meanVector vectors
    = Throw (ErrorObject "Cannot calculate mean of empty vector array")
  | first :: _ =>
    (Forall (fun v => length v = length first) vectors ->
     exists mean, meanVector vectors = Ret mean /\
                  length mean = length first) /\
    (~ Forall (fun v => length v = length first) vectors ->
     meanVector vectors
     = Throw (ErrorObject "All vectors must have the same dimensions"))
  end.
Proof.
  destruct vectors as [|first rest]; [done|].
  unfold meanVector.
  destruct (addAll_spec (length first) (first :: rest)
              (replicate (length first) 0%float)) as [Hok Hbad].
  { by rewrite length_replicate. }
  split; intros H.
  - destruct (Hok H) as (mean & -> & Hlen). cbn.
    eexists. split; [done|]. by rewrite length_map.
  - by rewrite (Hbad H).
Qed.

(** X6: [vectorsEqual] holds of every vector and itself, whatever its
    components (NaN and infinities included), for the default tolerance and
    for every tolerance that is not negative; and a component that is NaN
    is within every tolerance of anything, so a vector of NaNs is equal to
    every vector of its length. *)
Theorem vectorsEqual_reflexive_and_nan (vector : list float) :
  vectorsEqual vector vector None = true /\
  (forall tolerance, (tolerance <? 0)%float = false ->
     vectorsEqual vector vector (Some tolerance) = true) /\
  (forall tolerance,
     vectorsEqual (replicate (length vector) nan) vector tolerance = true).
Proof.
  assert (Hrefl : forall t, (t <? 0)%float = false ->
            vectorsEqual vector vector (Some t) = true).
  { intros t Ht. unfold vectorsEqual. rewrite Nat.eqb_refl. cbn.
    induction vector as [|x vector IH]; cbn; [done|].
    by rewrite float_ltb_abs_sub_diag, IH. }
  split_and!.
  - by apply (Hrefl 1e-10%float).
  - done.
  - intros tolerance. unfold vectorsEqual.
    rewrite length_replicate, Nat.eqb_refl. cbn -[nan]. clear Hrefl.
    induction vector as [|x vector IH]; cbn -[nan]; [done|].
    by rewrite float_ltb_abs_sub_nan, IH.
Qed.

End VectorProperties.

(** ** More on the execution engine *)

Section ExecutorProperties.
Import ToolExecutor Schedule.
Context (rt : Runtime) (env : Env).

(** The loop when attempt [k] is the first that returns. *)
Lemma retryLoop_succeeding req m left attempt k lastError w result :
  attempt <= k < attempt + Z.of_nat left -> k <= m ->
  (forall n, attempt <= n < k ->
     returns (fst (attemptResult env req n)) = false) ->
  fst (attemptResult env req k) = Ret result ->
  exists w',
    retryLoop env req m left attempt lastError w = (Ret result, w') /\
    ledger w' = ledger w /\
    events w' = events w ++
      (n ← seqZ attempt (k - attempt); [Fetched n req; Slept (2 ^ n * 1000)])
      ++ [Fetched k req].
Proof.
  revert attempt lastError w.
  induction left as [|left IH]; intros attempt lastError w Hk Hm Hfail Hok;
    [lia|].
  cbn [retryLoop]. rewrite attemptOnce_world.
  destruct (decide (attempt = k)) as [->|Hne].
  - rewrite Hok. eexists. split_and!; [done|done|]. cbn.
    by rewrite Z.sub_diag.
  - pose proof (Hfail attempt ltac:(lia)) as Hnow.
    destruct (fst (attemptResult env req attempt)) as [r|error]; [done|].
    destruct (Z.ltb_spec attempt m); [|lia].
    edestruct (IH (attempt + 1) error) as (w' & -> & Hledger & Hevents);
      [lia|done| |done|].
    { intros n Hn. apply Hfail. lia. }
    eexists. split_and!; [done|done|].
    rewrite Hevents. cbn.
    rewrite (seqZ_cons attempt (k - attempt)) by lia. cbn.
    replace (Z.pred (k - attempt)) with (k - (attempt + 1)) by lia.
    replace (Z.succ attempt) with (attempt + 1) by lia.
    by rewrite <- !app_assoc.
Qed.

(** X7: retrying stops at the first attempt that succeeds.  When
    validation passes, attempts 1 to [k - 1] fail and attempt [k], within
    the retry budget, returns, [executeTool] makes exactly these [k]
    attempts with a pause of [2^n] seconds after each failed attempt [n],
    returns success with the data and status of attempt [k], and hands one
    usage record marked successful to the store. *)
Theorem executeTool_first_success (tool : ApiTool.t)
  (parameters : gmap string JsVal) (userId sessionId : string) (w : World)
  (errors : list string) (k : Z) (data : JsVal) (status : Z) :
  let request := prepareRequest rt tool parameters in
  let m := orDefault (ApiConfig.retries (ApiTool.apiConfig tool)) 3 in
  validateParameters rt tool parameters = Ret (true, errors) ->
  1 <= k <= m ->
  (forall n, 1 <= n < k ->
     returns (fst (attemptResult env request n)) = false) ->
  fst (attemptResult env request k) = Ret (data, status) ->
  let '(result, w') :=
    executeTool rt env tool parameters userId sessionId w in
  let elapsed := clock w' - clock w in
  let usage :=
    usageRecord (ApiTool.toolId tool) userId sessionId parameters
      (succeededResponse data status elapsed)
      (Pricing.costInWei (ApiTool.pricing tool)) (clock w') in
  events w' = events w ++ succeedingAt request k /\
  Result.success result = true /\
  Result.data result = Some data /\
  Result.statusCode result = Some status /\
  Result.error result = None /\
  Result.executionTime result = elapsed /\
  ledger w' = ledger w ++ (if saveUsage env usage then [usage] else []).
Proof.
  intros request m Hv Hk Hfail Hok.
  destruct (retryLoop_succeeding request m (Z.to_nat m) 1 k ThrownUndefined
              w (data, status)) as (w1 & Hrun & Hledger & Hevents);
    [lia|lia|done|done|].
  unfold executeTool, tryExecute. rewrite Hv. cbn -[logToolUsage].
  fold request. change (orDefault _ 3) with m.
  unfold executeWithRetries. rewrite Hrun. cbn -[logToolUsage].
  rewrite logToolUsage_events, logToolUsage_ledger, Hledger.
  assert (forall r, clock (logToolUsage env (ApiTool.toolId tool) userId
            sessionId parameters r
            (Pricing.costInWei (ApiTool.pricing tool)) w1) = clock w1)
    as Hclock.
  { intros r. unfold logToolUsage. by destruct (saveUsage env _). }
  rewrite Hclock. split_and!; done.
Qed.

(** X8: the usage collection is append-only and grows by at most one
    record per call; a record that is added carries the caller's ids and
    parameters and the tool's price, is unpaid, and mirrors the result
    returned to the caller. *)
Theorem executeTool_ledger_append_only (tool : ApiTool.t)
  (parameters : gmap string JsVal) (userId sessionId : string) (w : World) :
  let '(result, w') :=
    executeTool rt env tool parameters userId sessionId w in
  exists added,
    ledger w' = ledger w ++ added /\
    (length added <= 1)%nat /\
    Forall (fun usage =>
      ToolUsage.toolId usage = ApiTool.toolId tool /\
      ToolUsage.userId usage = userId /\
      ToolUsage.sessionId usage = sessionId /\
      ToolUsage.parameters usage = parameters /\
      ToolUsage.costInWei (ToolUsage.billing usage)
        = Pricing.costInWei (ApiTool.pricing tool) /\
      ToolUsage.paid (ToolUsage.billing usage) = false /\
      ToolUsage.transactionHash (ToolUsage.billing usage) = None /\
      ToolUsage.success (ToolUsage.response usage) = Result.success result /\
      ToolUsage.data (ToolUsage.response usage) = Result.data result /\
      ToolUsage.error (ToolUsage.response usage) = Result.error result /\
      ToolUsage.statusCode (ToolUsage.response usage)
        = Result.statusCode result /\
      ToolUsage.executionTime (ToolUsage.response usage)
        = Result.executionTime result) added.
Proof.
  unfold executeTool, tryExecute.
  destruct (validateParameters rt tool parameters) as [[[] errors]|e];
    cbn -[logToolUsage].
  - unfold executeWithRetries.
    pose proof (retryLoop_ledger env (prepareRequest rt tool parameters)
      (orDefault (ApiConfig.retries (ApiTool.apiConfig tool)) 3)
      (Z.to_nat (orDefault (ApiConfig.retries (ApiTool.apiConfig tool)) 3))
      1 ThrownUndefined w) as Hledger.
    destruct (retryLoop _ _ _ _ _ _ _) as [[[data status]|e] w'];
      cbn -[logToolUsage] in *; rewrite logToolUsage_ledger, Hledger;
      eexists; (split; [done|]); destruct (saveUsage env _); cbn;
      (split; [lia|]); repeat constructor.
  - exists []. rewrite app_nil_r. split_and!; [done|cbn; lia|constructor].
  - rewrite logToolUsage_ledger.
    eexists; (split; [done|]); destruct (saveUsage env _); cbn;
      (split; [lia|]); repeat constructor.
Qed.

(** X9: no request is sent unless validation passes.  When validation
    reports errors the call returns them, joined, and leaves the world
    untouched; when validation throws, the call returns the thrown message
    and makes no call to [fetch]. *)
Theorem executeTool_validates_before_dispatch (tool : ApiTool.t)
  (parameters : gmap string JsVal) (userId sessionId : string) (w : World) :
  let '(result, w') :=
    executeTool rt env tool parameters userId sessionId w in
  match validateParameters rt tool parameters with
  | Ret (true, errors) => errors = []
  | Ret (false, errors) =>
    errors <> [] /\ w' = w /\
    result = failure tool ("Parameter validation failed: "
                           +:+ String.concat ", " errors) 0
  | Throw e =>
    events w' = events w /\ result = failure tool (errorMessageOf e) 0
  end.
Proof.
  destruct (validateParameters rt tool parameters) as [[valid errors]|e]
    eqn:Hv.
  - assert (valid = (length errors =? 0)%nat) as Hvalid.
    { unfold validateParameters in Hv.
      destruct (validateEach rt _ _ _) as [es|]; cbn in Hv; [|done].
      by injection Hv as <- <-. }
    destruct valid.
    + destruct (executeTool _ _ _ _ _ _ _). by destruct errors.
    + rewrite (executeTool_invalid rt env _ _ _ _ _ errors Hv).
      split_and!; [|done|done]. by intros ->.
  - rewrite (executeTool_validation_throws rt env _ _ _ _ _ e Hv).
    by rewrite logToolUsage_events.
Qed.

Lemma validateEach_insert params parameters errors k v :
  k ∉ Param.name <$> params ->
  validateEach rt params (<[k:=v]> parameters) errors
  = validateEach rt params parameters errors.
Proof.
  revert errors. induction params as [|p params IH]; intros errors Hk;
    cbn; [done|].
  apply not_elem_of_cons in Hk as [Hne Hk].
  rewrite lookup_insert_ne by done.
  destruct (Param.required p && isNullish _); [by apply IH|].
  destruct (negb (isNullish _)); [|by apply IH].
  destruct (Param.validation p) as [validation|]; [|by apply IH].
  destruct (validateConstraints rt _ _ validation); cbn; [by apply IH|done].
Qed.

(** X10: a property of the request that no declared parameter names is
    not validated: adding it, or changing it, never changes the verdict
    of [validateParameters]. *)
Theorem validateParameters_ignores_undeclared (tool : ApiTool.t)
  (parameters : gmap string JsVal) (k : string) (v : JsVal) :
  k ∉ Param.name <$> ApiTool.parameters tool ->
  validateParameters rt tool (<[k:=v]> parameters)
  = validateParameters rt tool parameters.
Proof.
  intros Hk. unfold validateParameters. by rewrite validateEach_insert.
Qed.

(** Errors are only ever added. *)
Lemma validateEach_keeps params parameters errors out message :
  validateEach rt params parameters errors = Ret out ->
  message ∈ errors -> message ∈ out.
Proof.
  revert errors. induction params as [|p params IH]; intros errors; cbn.
  { by intros [= <-]. }
  destruct (Param.required p && isNullish _).
  { intros H Hin. eapply IH; [done|]. apply elem_of_app. by left. }
  destruct (negb (isNullish _)); [|by apply IH].
  destruct (validateType _ _);
    (destruct (Param.validation p) as [validation|];
     [destruct (validateConstraints rt _ _ validation); cbn; [|done]|]);
    intros H Hin; (eapply IH; [done|]);
    rewrite ?elem_of_app; auto.
Qed.

(** X11: a required parameter that is absent, null or undefined is
    reported: whenever validation returns a verdict, the verdict is
    invalid and the errors contain the message naming the parameter. *)
Theorem validateParameters_reports_missing (tool : ApiTool.t)
  (parameters : gmap string JsVal) (p : Param.t) (valid : bool)
  (errors : list string) :
  p ∈ ApiTool.parameters tool ->
  Param.required p = true ->
  isNullish (default JUndefined (parameters !! Param.name p)) = true ->
  validateParameters rt tool parameters = Ret (valid, errors) ->
  valid = false /\
  ("Required parameter '" +:+ Param.name p +:+ "' is missing") ∈ errors.
Proof.
  intros Hin Hreq Hnull Hv. unfold validateParameters in Hv.
  destruct (validateEach rt _ _ _) as [out|] eqn:Hout; cbn in Hv; [|done].
  injection Hv as <- <-.
  assert (Hmsg : ("Required parameter '" +:+ Param.name p
                  +:+ "' is missing") ∈ out).
  { revert Hout. generalize (@nil string).
    induction (ApiTool.parameters tool) as [|q params IH]; intros errs.
    { by apply not_elem_of_nil in Hin. }
    apply elem_of_cons in Hin as [<-|Hin]; cbn.
    - rewrite Hreq, Hnull. cbn. intros H.
      eapply validateEach_keeps; [done|]. apply elem_of_app. right. by left.
    - destruct (Param.required q && isNullish _); [by apply IH|].
      destruct (negb (isNullish _)); [|by apply IH].
      destruct (Param.validation q) as [validation|]; [|by apply IH].
      destruct (validateConstraints rt _ _ validation); cbn;
        [by apply IH|done]. }
  split; [|done]. destruct out; [|done]. by apply not_elem_of_nil in Hmsg.
Qed.




End ExecutorProperties.

Section ExecutorWitnesses.
Import ToolExecutor Schedule.

Lemma executeTool_first_success_witness :
  let tool := Samples.tool None (Some 5) [] in
  let request := prepareRequest Samples.runtime tool ∅ in
  let '(result, w') :=
    executeTool Samples.runtime recovering tool ∅ "caller" "session"
      Samples.start in
  let elapsed := clock w' - clock Samples.start in
  let usage :=
    usageRecord (ApiTool.toolId tool) "caller" "session" ∅
      (succeededResponse (JBool true) 200 elapsed)
      (Pricing.costInWei (ApiTool.pricing tool)) (clock w') in
  events w' = events Samples.start ++ succeedingAt request 3 /\
  Result.success result = true /\
  Result.data result = Some (JBool true) /\
  Result.statusCode result = Some 200 /\
  Result.error result = None /\
  Result.executionTime result = elapsed /\
  ledger w' = ledger Samples.start ++
              (if saveUsage recovering usage then [usage] else []).
Proof.
  cbn zeta.
  apply (executeTool_first_success Samples.runtime recovering
           (Samples.tool None (Some 5) []) ∅ "caller" "session"
           Samples.start [] 3 (JBool true) 200).
  - reflexivity.
  - cbn. lia.
  - intros n Hn. unfold attemptResult. cbn.
    destruct (Z.ltb_spec n 3); [reflexivity|lia].
  - reflexivity.
Defined.

Lemma validateParameters_ignores_undeclared_witness :
  validateParameters Samples.runtime
    (Samples.tool None None [Samples.requiredCity])
    (<["verbose":=JBool true]> {[ "city" := JStr "Oslo" ]})
  = validateParameters Samples.runtime
      (Samples.tool None None [Samples.requiredCity])
      {[ "city" := JStr "Oslo" ]}.
Proof.
  apply (validateParameters_ignores_undeclared Samples.runtime
           (Samples.tool None None [Samples.requiredCity])
           {[ "city" := JStr "Oslo" ]} "verbose" (JBool true)).
  cbn. apply not_elem_of_cons. split; [discriminate|apply not_elem_of_nil].
Defined.

Lemma validateParameters_reports_missing_witness :
  false = false /\
  ("Required parameter '" +:+ Param.name Samples.requiredCity
   +:+ "' is missing") ∈ ["Required parameter 'city' is missing"].
Proof.
  apply (validateParameters_reports_missing Samples.runtime
           (Samples.tool None None [Samples.requiredCity]) ∅
           Samples.requiredCity false
           ["Required parameter 'city' is missing"]).
  - cbn. apply list_elem_of_here.
  - reflexivity.
  - reflexivity.
  - reflexivity.
Defined.


End ExecutorWitnesses.

(** ** More on the discovery service *)

Section DiscoveryProperties.
Import ToolDiscovery.
Context (env : Env).

Lemma trimStart_blank s : blank s = true -> trimStart s = "".
Proof.
  induction s as [|c s IH]; cbn; [done|].
  destruct (Ascii.is_space c); [by apply IH|done].
Qed.

Lemma trim_blank s : blank s = true -> trim s = "".
Proof. intros H. unfold trim. by rewrite (trimStart_blank s H). Qed.

(** X13: a query that is empty or made of white space only is refused by
    both searches with the same error, whatever the collection and the
    filters, and before anything else is looked at. *)
Theorem search_refuses_blank_query (store : list ApiTool.t)
  (query userId : string) (filters : Filters.t) (category : option string)
  (limit : option Z) :
  blank query = true ->
  searchToolsGlobally env store query filters limit
  = Throw (ErrorObject "Query must be a non-empty string") /\
  searchTools env store userId query category limit
  = Throw (ErrorObject "Query must be a non-empty string").
Proof.
  intros Hq. unfold searchToolsGlobally, searchTools.
  by rewrite (trim_blank query Hq).
Qed.

(** X14: the search over one user's tools is the global search with that
    user as owner filter, for every user id that is not the empty
    string. *)
Theorem searchTools_is_owner_search (store : list ApiTool.t)
  (userId query : string) (category : option string) (limit : option Z) :
  userId <> "" ->
  searchTools env store userId query category limit
  = searchToolsGlobally env store query
      {| Filters.category := category;
         Filters.maxCost := None;
         Filters.tags := None;
         Filters.userId := Some userId |} limit.
Proof.
  intros Hid. unfold searchTools, searchToolsGlobally, globalCriteria. cbn.
  destruct userId as [|c userId]; [done|]. by cbn.
Qed.

Lemma score_spec queryEmbedding tools ranked :
  score queryEmbedding tools = Ret ranked ->
  (tool <$> ranked) `sublist_of` tools /\
  Forall (fun r => exists e, ApiTool.embedding (tool r) = Some e /\ e <> [])
    ranked.
Proof.
  revert ranked. induction tools as [|t tools IH]; intros ranked; cbn.
  { intros [= <-]. split; constructor. }
  destruct (ApiTool.embedding t) as [[|x e]|] eqn:He.
  - intros H. destruct (IH _ H). split; [by apply sublist_cons|done].
  - destruct (VectorUtils.cosineSimilarity _ _) as [s|]; cbn; [|done].
    destruct (score queryEmbedding tools) as [rest|]; cbn; [|done].
    intros [= <-]. destruct (IH _ eq_refl) as [Hsub Hall]. cbn. split.
    + by apply sublist_skip.
    + constructor; [|done]. cbn. by eexists.
  - intros H. destruct (IH _ H). split; [by apply sublist_cons|done].
Qed.

Lemma slice0_sublist {A} (l : list A) n :
  VectorUtils.slice0 l n `sublist_of` l.
Proof. unfold VectorUtils.slice0. apply sublist_take. Qed.

Lemma slice0_length {A} (l : list A) n :
  0 <= n -> Z.of_nat (length (VectorUtils.slice0 l n)) <= n.
Proof.
  intros Hn. unfold VectorUtils.slice0.
  destruct (Z.ltb_spec n 0); [lia|]. rewrite length_take. lia.
Qed.

(** What a search returns, on top of its order. *)
Lemma ranking_results (criteria : Criteria.t) store queryEmbedding limit
  ranked :
  score queryEmbedding (find env criteria store) = Ret ranked ->
  let results :=
    tool <$> VectorUtils.slice0
               (VectorUtils.sort
                  (fun a b => (similarity b - similarity a)%float) ranked)
               limit in
  Forall (fun t => t ∈ store /\ matches env criteria t = true /\
                   exists e, ApiTool.embedding t = Some e /\ e <> [])
    results /\
  (length results <= length store)%nat /\
  (0 <= limit -> Z.of_nat (length results) <= limit).
Proof.
  intros Hscore results. apply score_spec in Hscore as [Hsub Hemb].
  set (sorted := VectorUtils.sort _ ranked) in *.
  assert (Hperm : sorted ≡ₚ ranked) by apply sort_Permutation.
  split_and!.
  - apply Forall_forall. intros t Ht.
    apply list_elem_of_fmap in Ht as (r & -> & Hr).
    assert (Hr' : r ∈ ranked).
    { rewrite <- Hperm. eapply sublist_subseteq; [apply slice0_sublist|done]. }
    assert (Hin : tool r ∈ find env criteria store).
    { eapply sublist_subseteq; [exact Hsub|]. by apply list_elem_of_fmap_2. }
    unfold find in Hin. apply list_elem_of_In, List.filter_In in Hin
      as [Hin Hm].
    split_and!; [by apply list_elem_of_In|done|].
    by eapply Forall_forall in Hemb.
  - unfold results. rewrite length_fmap.
    etrans; [apply sublist_length, slice0_sublist|].
    rewrite (Permutation_length Hperm), <- (length_fmap tool).
    etrans; [apply sublist_length, Hsub|].
    unfold find. apply List.filter_length_le.
  - intros Hl. unfold results. rewrite length_fmap. by apply slice0_length.
Qed.


(** X16: a registered tool can be looked up.  When [registerApiTool]
    succeeds, the new document is appended to the collection; it belongs to
    the caller, whatever owner or id the request named, and its id is
    [tool_<now>_<random>]; if no stored tool has that id and the request
    did not switch the tool off, [getToolById] returns it. *)
Theorem registerApiTool_then_getToolById (store : list ApiTool.t)
  (userId : string) (toolData : Partial.t) (registered : ApiTool.t)
  (store' : list ApiTool.t) :
  registerApiTool env store userId toolData = (Ret registered, store') ->
  store' = store ++ [registered] /\
  ApiTool.userId registered = userId /\
  ApiTool.toolId registered
  = "tool_" +:+ Js.decimal (now env) +:+ "_" +:+ randomSuffix env /\
  ApiTool.updatedAt registered = now env /\
  ApiTool.metadata registered
  = default defaultMetadata (Partial.metadata toolData) /\
  (Forall (fun t => ApiTool.toolId t <> ApiTool.toolId registered) store ->
   Metadata.isActive (ApiTool.metadata registered) = true ->
   getToolById store' (ApiTool.toolId registered) = Some registered).
Proof.
  unfold registerApiTool.
  destruct (embedQuery env _) as [v|]; [|done].
  destruct (construct _ _) as [t|] eqn:Ht; [|done].
  destruct (saveAccepted env store t); [|done].
  intros [= -> <-].
  unfold construct in Ht. cbn in Ht.
  destruct (Partial.name toolData), (Partial.description toolData),
    (Partial.category toolData), (Partial.apiConfig toolData),
    (Partial.pricing toolData); cbn in Ht; try done.
  injection Ht as <-. cbn. split_and!; try done.
  intros Hfresh Hactive. unfold getToolById.
  apply find_first.
  - eapply Forall_impl; [exact Hfresh|]. cbn. intros u Hu.
    apply andb_false_iff. left. unfold byToolId. by apply String.eqb_neq.
  - cbn in *. unfold byToolId. cbn. rewrite String.eqb_refl, Hactive. done.
Qed.

(** X17: updating an id that no stored tool has changes nothing: the
    collection is returned as it was, and the call returns null unless the
    embedding service failed first. *)
Theorem updateTool_unknown_id (store : list ApiTool.t) (toolId : string)
  (updates : Partial.t) :
  Forall (fun t => ApiTool.toolId t <> toolId) store ->
  snd (updateTool env store toolId updates) = store /\
  (fst (updateTool env store toolId updates) = Ret None \/
   exists e,
     fst (updateTool env store toolId updates) = Throw e /\
     embedQuery env (updateSearchText updates) = Throw e).
Proof.
  intros Hnone.
  assert (Hup : forall u, updateFirst (byToolId toolId) u store = None).
  { intros u. induction Hnone as [|t store Ht _ IH]; cbn; [done|].
    unfold byToolId at 1. apply String.eqb_neq in Ht. by rewrite Ht, IH. }
  unfold updateTool.
  destruct (truthy _ || truthy _ || truthy _).
  - destruct (embedQuery env _) as [v|e]; cbn.
    + rewrite Hup. auto.
    + split; [done|]. right. by exists e.
  - rewrite Hup. auto.
Qed.

(** X18: an update replaces one document in place.  The first tool with
    the id becomes the updated one, every other document keeps its value
    and its position, the activity flag is not consulted, [updatedAt] is
    set to now, and each field that the patch does not carry keeps its
    stored value. *)
Theorem updateTool_frame (store : list ApiTool.t) (toolId : string)
  (updates : Partial.t) (new : ApiTool.t) (store' : list ApiTool.t) :
  updateTool env store toolId updates = (Ret (Some new), store') ->
  exists before old after,
    store = before ++ old :: after /\
    store' = before ++ new :: after /\
    Forall (fun t => ApiTool.toolId t <> toolId) before /\
    ApiTool.toolId old = toolId /\
    ApiTool.updatedAt new = now env /\
    (Partial.toolId updates = None -> ApiTool.toolId new = toolId) /\
    (Partial.userId updates = None ->
       ApiTool.userId new = ApiTool.userId old) /\
    (Partial.name updates = None -> ApiTool.name new = ApiTool.name old) /\
    (Partial.description updates = None ->
       ApiTool.description new = ApiTool.description old) /\
    (Partial.category updates = None ->
       ApiTool.category new = ApiTool.category old) /\
    (Partial.apiConfig updates = None ->
       ApiTool.apiConfig new = ApiTool.apiConfig old) /\
    (Partial.parameters updates = None ->
       ApiTool.parameters new = ApiTool.parameters old) /\
    (Partial.pricing updates = None ->
       ApiTool.pricing new = ApiTool.pricing old) /\
    (Partial.metadata updates = None ->
       ApiTool.metadata new = ApiTool.metadata old) /\
    (Partial.createdAt updates = None ->
       ApiTool.createdAt new = ApiTool.createdAt old).
Proof.
  unfold updateTool.
  assert (Hsame : forall u,
            (if truthy (Partial.name updates)
                || truthy (Partial.description updates)
                || truthy (Partial.category updates)
             then embedding ← embedQuery env (updateSearchText updates);
                  Ret (withEmbedding updates embedding)
             else Ret updates) = Ret u ->
            Partial.toolId u = Partial.toolId updates /\
            Partial.userId u = Partial.userId updates /\
            Partial.name u = Partial.name updates /\
            Partial.description u = Partial.description updates /\
            Partial.category u = Partial.category updates /\
            Partial.apiConfig u = Partial.apiConfig updates /\
            Partial.parameters u = Partial.parameters updates /\
            Partial.pricing u = Partial.pricing updates /\
            Partial.metadata u = Partial.metadata updates /\
            Partial.createdAt u = Partial.createdAt updates).
  { intros u.
    destruct (truthy _ || truthy _ || truthy _).
    - destruct (embedQuery env _); cbn; [|done]. by intros [= <-].
    - by intros [= <-]. }
  destruct (if truthy _ || truthy _ || truthy _ then _ else _) as [u|];
    [|done].
  destruct (Hsame u eq_refl)
    as (H1 & H2 & H3 & H4 & H5 & H6 & H7 & H8 & H9 & H10).
  destruct (updateFirst _ _ store) as [[[old new'] store'']|] eqn:Hup;
    [|done].
  destruct (updateAccepted env store'' new'); [|done].
  intros [= <- <-].
  apply updateFirst_Some in Hup
    as (before & after & -> & -> & Hbefore & Hold & ->).
  unfold byToolId in Hold. apply String.eqb_eq in Hold.
  exists before, old, after. split_and!; try done.
  - eapply Forall_impl; [exact Hbefore|]. cbn. intros t Ht.
    by apply String.eqb_neq.
  - cbn. rewrite H1. by intros ->.
  - cbn. rewrite H2. by intros ->.
  - cbn. rewrite H3. by intros ->.
  - cbn. rewrite H4. by intros ->.
  - cbn. rewrite H5. by intros ->.
  - cbn. rewrite H6. by intros ->.
  - cbn. rewrite H7. by intros ->.
  - cbn. rewrite H8. by intros ->.
  - cbn. rewrite H9. by intros ->.
  - cbn. rewrite H10. by intros ->.
Qed.

Lemma find_replace {A} (f : A -> bool) before x y after :
  f x = f y ->
  List.find f (before ++ x :: after) = List.find f (before ++ y :: after)
  \/ (f x = true /\ List.find f (before ++ x :: after) = Some x /\
      List.find f (before ++ y :: after) = Some y).
Proof.
  intros Hxy. induction before as [|b before IH]; cbn.
  - rewrite <- Hxy. destruct (f x); auto.
  - destruct (f b); auto.
Qed.

(** X19: deactivating leaves the rest of the collection alone.  On an id
    that no stored tool has it reports [false] and returns the collection
    as it was; in every case looking up any other id gives what it gave
    before, and the collection keeps its size. *)
Theorem deactivateTool_frame (store : list ApiTool.t) (toolId : string) :
  (Forall (fun t => ApiTool.toolId t <> toolId) store ->
   deactivateTool env store toolId = (false, store)) /\
  (forall other, other <> toolId ->
     getToolById (snd (deactivateTool env store toolId)) other
     = getToolById store other) /\
  length (snd (deactivateTool env store toolId)) = length store.
Proof.
  unfold deactivateTool. split_and!.
  - intros Hnone.
    assert (updateFirst (byToolId toolId) (deactivate env) store = None)
      as ->; [|done].
    induction Hnone as [|t store Ht _ IH]; cbn; [done|].
    unfold byToolId at 1. apply String.eqb_neq in Ht. by rewrite Ht, IH.
  - intros other Hother.
    destruct (updateFirst _ _ store) as [[[old new] store']|] eqn:Hup;
      [|done].
    apply updateFirst_Some in Hup
      as (before & after & -> & -> & _ & Hold & ->).
    cbn. unfold getToolById.
    unfold byToolId in Hold. apply String.eqb_eq in Hold.
    assert (Hf : forall t, ApiTool.toolId t = toolId ->
              byToolId other t
              && Bool.eqb (Metadata.isActive (ApiTool.metadata t)) true
              = false).
    { intros t Ht. unfold byToolId. rewrite Ht.
      apply not_eq_sym, String.eqb_neq in Hother. by rewrite Hother. }
    destruct (find_replace
      (fun t => byToolId other t
                && Bool.eqb (Metadata.isActive (ApiTool.metadata t)) true)
      before (deactivate env old) old after) as [H|[H _]].
    + by rewrite !Hf.
    + done.
    + by rewrite Hf in H.
  - destruct (updateFirst _ _ store) as [[[old new] store']|] eqn:Hup;
      [|done].
    apply updateFirst_Some in Hup as (before & after & -> & -> & _).
    cbn. by rewrite !length_app.
Qed.

(** X20: once a tool has been deactivated, no global search returns it,
    whatever the query and the filters (tool ids being unique in the
    collection). *)
Theorem deactivated_tool_is_not_found (store : list ApiTool.t)
  (toolId query : string) (filters : Filters.t) (limit : option Z)
  (results : list ApiTool.t) :
  NoDup (ApiTool.toolId <$> store) ->
  searchToolsGlobally env (snd (deactivateTool env store toolId)) query
    filters limit = Ret results ->
  Forall (fun t => ApiTool.toolId t <> toolId) results.
Proof.
  intros Hnd Hsearch.
  destruct (deactivateTool_store env store toolId Hnd) as (Hnone & _ & _).
  unfold searchToolsGlobally in Hsearch.
  destruct (String.eqb (trim query) ""); [done|].
  destruct (embedQuery env (trim query)) as [queryEmbedding|];
    cbn in Hsearch; [|done].
  destruct (score queryEmbedding _) as [ranked|] eqn:Hscore;
    cbn in Hsearch; [|done].
  injection Hsearch as <-.
  destruct (ranking_results _ _ _ (default 10 limit) _ Hscore)
    as (Hall & _ & _).
  eapply Forall_impl; [exact Hall|]. cbn.
  intros t (Hin & Hm & _) Hid.
  assert (Hactive : Metadata.isActive (ApiTool.metadata t) = true).
  { unfold matches in Hm. rewrite !andb_true_iff in Hm.
    destruct Hm as [[[[[Hactive _] _] _] _] _]. cbn in Hactive.
    by destruct (Metadata.isActive _). }
  unfold getToolById in Hnone.
  apply list_elem_of_In in Hin.
  pose proof (List.find_none _ _ Hnone t Hin) as Hf. cbn in Hf.
  unfold byToolId in Hf. rewrite Hid, String.eqb_refl, Hactive in Hf. done.
Qed.

End DiscoveryProperties.

Section DiscoveryWitnesses.
Import ToolDiscovery.

Lemma search_refuses_blank_query_witness :
  searchToolsGlobally Samples.collaborators [] "   " (Samples.costAtMost 10)
    None
  = Throw (ErrorObject "Query must be a non-empty string") /\
  searchTools Samples.collaborators [] "owner" "   " None None
  = Throw (ErrorObject "Query must be a non-empty string").
Proof.
  apply (search_refuses_blank_query Samples.collaborators [] "   " "owner"
           (Samples.costAtMost 10) None None).
  reflexivity.
Defined.

Lemma searchTools_is_owner_search_witness :
  searchTools Samples.collaborators
    [Samples.stored "tool_9" "9" true [1%float; 0%float]]
    "owner" "weather" None None
  = searchToolsGlobally Samples.collaborators
      [Samples.stored "tool_9" "9" true [1%float; 0%float]] "weather"
      {| Filters.category := None;
         Filters.maxCost := None;
         Filters.tags := None;
         Filters.userId := Some "owner" |} None.
Proof.
  apply (searchTools_is_owner_search Samples.collaborators
           [Samples.stored "tool_9" "9" true [1%float; 0%float]]
           "owner" "weather" None None).
  discriminate.
Defined.


Lemma registerApiTool_then_getToolById_witness :
  exists registered,
    registerApiTool Samples.collaborators [] "alice" Samples.newTool
    = (Ret registered, [registered]) /\
    [registered] = [] ++ [registered] /\
    ApiTool.userId registered = "alice" /\
    ApiTool.toolId registered
    = "tool_" +:+ Js.decimal (now Samples.collaborators) +:+ "_"
      +:+ randomSuffix Samples.collaborators /\
    ApiTool.updatedAt registered = now Samples.collaborators /\
    ApiTool.metadata registered
    = default defaultMetadata (Partial.metadata Samples.newTool) /\
    (Forall (fun t => ApiTool.toolId t <> ApiTool.toolId registered) [] ->
     Metadata.isActive (ApiTool.metadata registered) = true ->
     getToolById [registered] (ApiTool.toolId registered) = Some registered).
Proof.
  eexists. split; [vm_compute; reflexivity|].
  eapply (registerApiTool_then_getToolById Samples.collaborators [] "alice"
            Samples.newTool).
  vm_compute. reflexivity.
Defined.

Lemma updateTool_unknown_id_witness :
  let store := [Samples.stored "tool_9" "9" true [1%float; 0%float]] in
  snd (updateTool Samples.collaborators store "tool_7" Samples.newPrice)
  = store /\
  (fst (updateTool Samples.collaborators store "tool_7" Samples.newPrice)
   = Ret None \/
   exists e,
     fst (updateTool Samples.collaborators store "tool_7" Samples.newPrice)
     = Throw e /\
     embedQuery Samples.collaborators (updateSearchText Samples.newPrice)
     = Throw e).
Proof.
  cbn zeta.
  apply (updateTool_unknown_id Samples.collaborators
           [Samples.stored "tool_9" "9" true [1%float; 0%float]] "tool_7"
           Samples.newPrice).
  repeat constructor. discriminate.
Defined.

Lemma updateTool_frame_witness :
  let env := Samples.collaborators in
  let stored := Samples.stored "tool_9" "9" false [1%float; 0%float] in
  let updates := Samples.newPrice in
  let new := applyUpdates env updates stored in
  exists before old after,
    [stored] = before ++ old :: after /\
    [new] = before ++ new :: after /\
    Forall (fun t => ApiTool.toolId t <> "tool_9") before /\
    ApiTool.toolId old = "tool_9" /\
    ApiTool.updatedAt new = now env /\
    (Partial.toolId updates = None -> ApiTool.toolId new = "tool_9") /\
    (Partial.userId updates = None ->
       ApiTool.userId new = ApiTool.userId old) /\
    (Partial.name updates = None -> ApiTool.name new = ApiTool.name old) /\
    (Partial.description updates = None ->
       ApiTool.description new = ApiTool.description old) /\
    (Partial.category updates = None ->
       ApiTool.category new = ApiTool.category old) /\
    (Partial.apiConfig updates = None ->
       ApiTool.apiConfig new = ApiTool.apiConfig old) /\
    (Partial.parameters updates = None ->
       ApiTool.parameters new = ApiTool.parameters old) /\
    (Partial.pricing updates = None ->
       ApiTool.pricing new = ApiTool.pricing old) /\
    (Partial.metadata updates = None ->
       ApiTool.metadata new = ApiTool.metadata old) /\
    (Partial.createdAt updates = None ->
       ApiTool.createdAt new = ApiTool.createdAt old).
Proof.
  cbn zeta.
  apply (updateTool_frame Samples.collaborators
           [Samples.stored "tool_9" "9" false [1%float; 0%float]] "tool_9"
           Samples.newPrice).
  reflexivity.
Defined.

Lemma deactivated_tool_is_not_found_witness :
  Forall (fun t => ApiTool.toolId t <> "tool_9")
    [Samples.stored "tool_10" "10" true [1%float; 0%float]].
Proof.
  apply (deactivated_tool_is_not_found Samples.collaborators
           [Samples.stored "tool_9" "9" true [1%float; 0%float];
            Samples.stored "tool_10" "10" true [1%float; 0%float]]
           "tool_9" "weather" (Samples.costAtMost 9) None).
  - apply (bool_decide_unpack _). vm_compute. exact I.
  - vm_compute. reflexivity.
Defined.

End DiscoveryWitnesses.

(** ** The rate limiter *)

Section RateLimiterProperties.
Import RateLimiter.

Lemma createLimiter_other windowMs max ip now rc other :
  other <> clientOf ip ->
  snd (createLimiter windowMs max ip now rc) !! other = rc !! other.
Proof.
  intros Hother. unfold createLimiter.
  destruct (rc !! clientOf ip) as [d|]; cbn.
  - destruct (resetTime d <? now); cbn; [by rewrite lookup_insert_ne|].
    destruct (max <=? count d); cbn; [done|by rewrite lookup_insert_ne].
  - by rewrite lookup_insert_ne.
Qed.

Lemma serve_other windowMs max ip times rc other :
  other <> clientOf ip ->
  snd (serve (createLimiter windowMs max) ip times rc) !! other
  = rc !! other.
Proof.
  intros Hother. revert rc. induction times as [|now later IH]; intros rc;
    cbn; [done|].
  pose proof (createLimiter_other windowMs max ip now rc other Hother) as H.
  destruct (createLimiter windowMs max ip now rc) as [ok rc1].
  specialize (IH rc1).
  destruct (serve _ ip later rc1) as [oks rc2]. cbn in *.
  by rewrite IH.
Qed.

(** Inside an open window the request with [c + i] requests counted
    before it is admitted exactly when that number is below [max]; the
    counter stops at [max] and the end of the window stays where it is. *)
Lemma serve_in_window windowMs max ip times rc c r :
  rc !! clientOf ip = Some {| count := c; resetTime := r |} ->
  Forall (fun t => t <= r) times ->
  length (fst (serve (createLimiter windowMs max) ip times rc))
    = length times /\
  (forall i ok,
     fst (serve (createLimiter windowMs max) ip times rc) !! i = Some ok ->
     ok = (c + Z.of_nat i <? max)) /\
  snd (serve (createLimiter windowMs max) ip times rc) !! clientOf ip
    = Some {| count := Z.max c (Z.min max (c + Z.of_nat (length times)));
              resetTime := r |}.
Proof.
  intros Hrc Htimes. revert rc c Hrc.
  induction Htimes as [|now later Hnow _ IH]; intros rc c Hrc;
    cbn [serve length].
  { cbn. split_and!; [done|by intros i ok|].
    rewrite Hrc. do 2 f_equal. lia. }
  unfold createLimiter at 1 3 5. rewrite Hrc. cbn [resetTime count].
  destruct (Z.ltb_spec r now); [lia|].
  destruct (Z.leb_spec max c).
  - destruct (IH rc c Hrc) as (Hlen & Hall & Hstate).
    destruct (serve _ ip later rc) as [oks rc'] eqn:Hs.
    cbn in *. split_and!; [by rewrite Hlen| |].
    + intros [|i] ok Hi; cbn in Hi.
      * injection Hi as <-. symmetry. apply Z.ltb_ge. lia.
      * rewrite (Hall i ok Hi). symmetry.
        destruct (Z.ltb_spec (c + Z.of_nat i) max); [lia|].
        apply Z.ltb_ge. lia.
    + rewrite Hstate. do 2 f_equal. lia.
  - destruct (IH (<[clientOf ip := {| count := c + 1; resetTime := r |}]> rc)
                (c + 1)) as (Hlen & Hall & Hstate).
    { by rewrite lookup_insert_eq. }
    destruct (serve _ ip later _) as [oks rc'] eqn:Hs.
    cbn in *. split_and!; [by rewrite Hlen| |].
    + intros [|i] ok Hi; cbn in Hi.
      * injection Hi as <-. symmetry. apply Z.ltb_lt. lia.
      * rewrite (Hall i ok Hi). f_equal. lia.
    + rewrite Hstate. do 2 f_equal. lia.
Qed.

(** The request that opens a window is admitted and starts the count
    at 1. *)
Lemma createLimiter_opens windowMs max ip t0 rc :
  match rc !! clientOf ip with
  | Some clientData => resetTime clientData < t0
  | None => True
  end ->
  createLimiter windowMs max ip t0 rc
  = (true, <[clientOf ip := {| count := 1; resetTime := t0 + windowMs |}]>
             rc).
Proof.
  intros Hopen. unfold createLimiter.
  destruct (rc !! clientOf ip) as [d|]; [|done].
  destruct (Z.ltb_spec (resetTime d) t0); [done|lia].
Qed.

(** X21: a window admits [max] requests of a client and no more.  When a
    client's request at time [t0] opens a window (the client is unknown, or
    its window has run out) and further requests arrive before the window
    closes, the request number [i], counted from 0, is admitted exactly
    when [i < max]; the opening request is admitted even if [max] is 0 or
    negative.  The counters of other clients are not touched. *)
Theorem limiter_admits_max_per_window (windowMs max : Z)
  (ip : option string) (t0 : Z) (later : list Z)
  (requestCounts : gmap string ClientData) :
  match requestCounts !! clientOf ip with
  | Some clientData => resetTime clientData < t0
  | None => True
  end ->
  Forall (fun t => t <= t0 + windowMs) later ->
  let '(outcomes, requestCounts') :=
    serve (createLimiter windowMs max) ip (t0 :: later) requestCounts in
  length outcomes = S (length later) /\
  (forall i ok, outcomes !! i = Some ok ->
     ok = (Z.of_nat i <? Z.max 1 max)) /\
  (forall other, other <> clientOf ip ->
     requestCounts' !! other = requestCounts !! other).
Proof.
  intros Hopen Hlater.
  pose proof (serve_other windowMs max ip (t0 :: later) requestCounts)
    as Hother.
  cbn [serve] in *. rewrite (createLimiter_opens _ _ _ _ _ Hopen) in *.
  set (opened := <[clientOf ip := {| count := 1;
                                     resetTime := t0 + windowMs |}]>
                   requestCounts) in *.
  destruct (serve_in_window windowMs max ip later opened 1 (t0 + windowMs))
    as (Hlen & Hall & _);
    [by unfold opened; rewrite lookup_insert_eq|done|].
  destruct (serve _ ip later opened) as [oks rc'] eqn:Hs.
  cbn in *. split_and!.
  - by rewrite Hlen.
  - intros [|i] ok Hi; cbn in Hi.
    + injection Hi as <-. symmetry. apply Z.ltb_lt. lia.
    + rewrite (Hall i ok Hi).
      destruct (Z.ltb_spec (1 + Z.of_nat i) max);
        symmetry; [apply Z.ltb_lt|apply Z.ltb_ge]; lia.
  - done.
Qed.

Lemma limiter_admits_max_per_window_witness :
  let '(outcomes, requestCounts') :=
    serve (createLimiter 1000 2) (Some "10.0.0.1") [100; 200; 300; 1100]
      {[ "10.0.0.2" := {| count := 7; resetTime := 5000 |} ]} in
  length outcomes = S (length [200; 300; 1100]) /\
  (forall i ok, outcomes !! i = Some ok ->
     ok = (Z.of_nat i <? Z.max 1 2)) /\
  (forall other, other <> clientOf (Some "10.0.0.1") ->
     requestCounts' !! other
     = ({[ "10.0.0.2" := {| count := 7; resetTime := 5000 |} ]}
          : gmap string ClientData) !! other).
Proof.
  apply (limiter_admits_max_per_window 1000 2 (Some "10.0.0.1") 100
           [200; 300; 1100]
           {[ "10.0.0.2" := {| count := 7; resetTime := 5000 |} ]}).
  - vm_compute. exact I.
  - repeat constructor; lia.
Defined.

(** X22: the two limiters count in the same map, so requests admitted by
    the general limiter use up the allowance of the strict one.  When a
    client's request opens a window at the general limiter and at least
    four more of its requests pass through the general limiter inside the
    window, a request of that client to the strict limiter inside the
    window is refused, though the strict limiter has admitted none; the
    refusal leaves the map as it is. *)
Theorem limiters_share_counters (ip : option string) (t0 : Z)
  (later : list Z) (now : Z) (requestCounts : gmap string ClientData) :
  match requestCounts !! clientOf ip with
  | Some clientData => resetTime clientData < t0
  | None => True
  end ->
  Forall (fun t => t <= t0 + 15 * 60 * 1000) later ->
  (4 <= length later)%nat ->
  now <= t0 + 15 * 60 * 1000 ->
  let '(_, requestCounts') :=
    serve generalLimiter ip (t0 :: later) requestCounts in
  strictLimiter ip now requestCounts' = (false, requestCounts').
Proof.
  intros Hopen Hlater Hmany Hnow. unfold generalLimiter, strictLimiter.
  cbn [serve]. rewrite (createLimiter_opens _ _ _ _ _ Hopen).
  set (opened := <[clientOf ip := _]> requestCounts).
  destruct (serve_in_window (15 * 60 * 1000) 100 ip later opened 1
              (t0 + 15 * 60 * 1000)) as (_ & _ & Hstate);
    [by unfold opened; rewrite lookup_insert_eq|done|].
  destruct (serve _ ip later opened) as [oks rc'] eqn:Hs.
  cbn [snd] in Hstate. unfold createLimiter. rewrite Hstate.
  cbn [resetTime count].
  destruct (Z.ltb_spec (t0 + 15 * 60 * 1000) now); [lia|].
  destruct (Z.leb_spec 5
              (Z.max 1 (Z.min 100 (1 + Z.of_nat (length later)))));
    [done|lia].
Qed.

Lemma limiters_share_counters_witness :
  let '(_, requestCounts') :=
    serve generalLimiter (Some "10.0.0.1") [100; 200; 300; 400; 500] ∅ in
  strictLimiter (Some "10.0.0.1") 600 requestCounts'
  = (false, requestCounts').
Proof.
  apply (limiters_share_counters (Some "10.0.0.1") 100 [200; 300; 400; 500]
           600 ∅).
  - vm_compute. exact I.
  - repeat constructor; lia.
  - cbn. lia.
  - lia.
Defined.

End RateLimiterProperties.

(** ** The controller *)

Section ControllerProperties.
Import ToolExecutor Schedule.

Variable rt : Runtime.
Variable env : Env.
Variable denv : ToolDiscovery.Env.

(** X23: the health grade is monotone in both measures and pessimistic on
    NaN.  When the success rate does not drop and the average execution
    time does not rise, a healthy tool stays healthy and a tool that is
    not critical does not become critical; a measure that is NaN makes the
    tool critical whatever the other measure is. *)
Theorem getToolHealthStatus_monotone
  (successRate successRate' avgExecutionTime avgExecutionTime' : float) :
  (successRate <=? successRate')%float = true ->
  (avgExecutionTime' <=? avgExecutionTime)%float = true ->
  (AppController.getToolHealthStatus successRate avgExecutionTime
     = "healthy" ->
   AppController.getToolHealthStatus successRate' avgExecutionTime'
     = "healthy") /\
  (AppController.getToolHealthStatus successRate' avgExecutionTime'
     = "critical" ->
   AppController.getToolHealthStatus successRate avgExecutionTime
     = "critical") /\
  AppController.getToolHealthStatus nan avgExecutionTime = "critical" /\
  AppController.getToolHealthStatus successRate nan = "critical".
Proof.
  intros Hs Ht. unfold AppController.getToolHealthStatus.
  rewrite !float_leb_nan_r.
  assert (Hnan : forall bound, (nan <? bound)%float = false)
    by apply float_ltb_nan_l.
  rewrite !Hnan, !andb_false_r. cbn [andb].
  assert (Hup : forall bound, (bound <=? successRate)%float = true ->
                              (bound <=? successRate')%float = true).
  { intros bound Hb. by eapply float_leb_trans. }
  assert (Hdown : forall bound, (avgExecutionTime <? bound)%float = true ->
                                (avgExecutionTime' <? bound)%float = true).
  { intros bound Hb. by eapply float_leb_ltb_trans. }
  split_and!; try done.
  - destruct (0.95 <=? successRate)%float eqn:H1; cbn [andb].
    + destruct (avgExecutionTime <? 5000)%float eqn:H2.
      * intros _. by rewrite (Hup _ H1), (Hdown _ H2).
      * by destruct ((0.85 <=? successRate)%float
                     && (avgExecutionTime <? 10000)%float).
    + by destruct ((0.85 <=? successRate)%float
                   && (avgExecutionTime <? 10000)%float).
  - destruct ((0.95 <=? successRate')%float
              && (avgExecutionTime' <? 5000)%float) eqn:Hh'; [done|].
    destruct ((0.85 <=? successRate')%float
              && (avgExecutionTime' <? 10000)%float) eqn:Hw'; [done|].
    intros _.
    destruct ((0.95 <=? successRate)%float
              && (avgExecutionTime <? 5000)%float) eqn:Hh.
    { apply andb_true_iff in Hh as [H1 H2].
      by rewrite (Hup _ H1), (Hdown _ H2) in Hh'. }
    destruct ((0.85 <=? successRate)%float
              && (avgExecutionTime <? 10000)%float) eqn:Hw; [|done].
    apply andb_true_iff in Hw as [H1 H2].
    by rewrite (Hup _ H1), (Hdown _ H2) in Hw'.
Qed.

Lemma getToolHealthStatus_monotone_witness :
  (AppController.getToolHealthStatus 0.96 4000 = "healthy" ->
   AppController.getToolHealthStatus 0.99 1200 = "healthy") /\
  (AppController.getToolHealthStatus 0.99 1200 = "critical" ->
   AppController.getToolHealthStatus 0.96 4000 = "critical") /\
  AppController.getToolHealthStatus nan 4000 = "critical" /\
  AppController.getToolHealthStatus 0.96 nan = "critical".
Proof.
  apply (getToolHealthStatus_monotone 0.96 0.99 4000 1200);
    vm_compute; reflexivity.
Defined.

(** X24: the execution endpoint does not run a deactivated tool.  Once
    [deactivateTool] has been applied to an id (tool ids being unique in
    the collection), a request for that id is answered without a request
    being sent, a pause or a usage record: with 404 when the token carries
    a user id and the body a tool id and parameters, with 400 otherwise. *)
Theorem endpoint_refuses_deactivated (store : list ApiTool.t)
  (toolId : string) (userId : option string)
  (parameters : option (gmap string JsVal)) (sessionId : option string)
  (generatedId : string) (w : World) :
  NoDup (ApiTool.toolId <$> store) ->
  let '(response, w') :=
    AppController.executeTool rt env
      (snd (ToolDiscovery.deactivateTool denv store toolId))
      userId (Some toolId) parameters sessionId generatedId w in
  w' = w /\
  AppController.success response = false /\
  AppController.data response = None /\
  AppController.status response =
    (if ToolDiscovery.truthy userId && negb (String.eqb toolId "")
        && bool_decide (is_Some parameters)
     then 404 else 400).
Proof.
  intros Hnd.
  destruct (deactivateTool_store denv store toolId Hnd) as (Hnone & _ & _).
  unfold AppController.executeTool.
  destruct userId as [[|u us]|]; cbn; [done| |done].
  destruct toolId as [|c cs]; cbn; [done|].
  destruct parameters as [parameters|]; cbn; [|done].
  cbn in Hnone. rewrite Hnone. done.
Qed.

(** X25: a call whose parameters fail validation is answered with 400 and
    the message of a failed execution: the answer carries the validation
    errors and the formatted price, and no request is sent and no usage
    record written. *)
Theorem endpoint_invalid_parameters (store : list ApiTool.t)
  (userId toolId : string) (parameters : gmap string JsVal)
  (sessionId : option string) (generatedId : string) (w : World)
  (tool : ApiTool.t) (errors : list string) (formatted : string) :
  userId <> "" -> toolId <> "" ->
  ToolDiscovery.getToolById store toolId = Some tool ->
  validateParameters rt tool parameters = Ret (false, errors) ->
  EthUtils.formatWei (Pricing.costInWei (ApiTool.pricing tool))
    = Some formatted ->
  AppController.executeTool rt env store (Some userId) (Some toolId)
    (Some parameters) sessionId generatedId w =
  ({| AppController.status := 400;
      AppController.success := false;
      AppController.message := "Tool execution failed";
      AppController.data :=
        Some (failure tool ("Parameter validation failed: "
                            +:+ String.concat ", " errors) 0,
              formatted) |}, w).
Proof.
  intros Hu Ht Hfound Hv Hf. unfold AppController.executeTool.
  destruct userId as [|u us]; [done|].
  destruct toolId as [|c cs]; [done|].
  rewrite Hfound.
  rewrite (executeTool_invalid rt env tool parameters _ _ w errors Hv).
  cbn. by rewrite Hf.
Qed.

End ControllerProperties.

Section ControllerWitnesses.
Import ToolExecutor Schedule.

Lemma endpoint_refuses_deactivated_witness :
  let '(response, w') :=
    AppController.executeTool Samples.runtime Samples.alwaysFailing
      (snd (ToolDiscovery.deactivateTool Samples.collaborators
              [Samples.tool None None [Samples.requiredCity]] "tool_1"))
      (Some "user_1") (Some "tool_1") (Some ∅) None "generated"
      Samples.start in
  w' = Samples.start /\
  AppController.success response = false /\
  AppController.data response = None /\
  AppController.status response =
    (if ToolDiscovery.truthy (Some "user_1")
        && negb (String.eqb "tool_1" "")
        && bool_decide (is_Some (Some (∅ : gmap string JsVal)))
     then 404 else 400).
Proof.
  apply (endpoint_refuses_deactivated Samples.runtime Samples.alwaysFailing
           Samples.collaborators
           [Samples.tool None None [Samples.requiredCity]] "tool_1"
           (Some "user_1") (Some ∅) None "generated" Samples.start).
  apply (bool_decide_unpack _). vm_compute. exact I.
Defined.

Lemma endpoint_invalid_parameters_witness :
  exists formatted,
  AppController.executeTool Samples.runtime Samples.alwaysFailing
    [Samples.tool None None [Samples.requiredCity]]
    (Some "user_1") (Some "tool_1") (Some ∅) None "generated"
    Samples.start =
  ({| AppController.status := 400;
      AppController.success := false;
      AppController.message := "Tool execution failed";
      AppController.data :=
        Some (failure (Samples.tool None None [Samples.requiredCity])
                ("Parameter validation failed: "
                 +:+ String.concat ", "
                       ["Required parameter 'city' is missing"]) 0,
              formatted) |}, Samples.start).
Proof.
  eexists.
  apply (endpoint_invalid_parameters Samples.runtime Samples.alwaysFailing
           [Samples.tool None None [Samples.requiredCity]]
           "user_1" "tool_1" ∅ None "generated" Samples.start
           (Samples.tool None None [Samples.requiredCity])
           ["Required parameter 'city' is missing"]).
  - discriminate.
  - discriminate.
  - vm_compute. reflexivity.
  - vm_compute. reflexivity.
  - vm_compute. reflexivity.
Defined.

End ControllerWitnesses.
